(** * mcp-tools: the tool handlers and their result envelopes

    A shallow embedding of the four tool handlers of the package
    [mcptools] (get_weather, bash, git and the GitHub repository tool)
    together with the part of Go's [encoding/json] and [fmt] they rely on.

    Layout
    - [error]: Go error values, with the messages [Error()] gives;
    - [Json]: the byte-level scanner, the document parser and the
      decoding of a document into the handlers' input structures;
    - [Prog]: handler bodies as programs over the calls they make to their
      collaborators (tracer, logger, process runner, GitHub client);
    - the handlers, transcribed from the sources;
    - the properties. *)

From Stdlib Require Import String Ascii List ZArith NArith Bool Lia.
Import ListNotations.
Open Scope list_scope.
Open Scope string_scope.

Set Warnings "-register-all".

(** ** Go errors *)

(** An [error] is known by its dynamic kind and by the text [Error()]
    returns.  [errorString] is what [errors.New] and a [fmt.Errorf] without
    [%w] build (any error obtained from a collaborator is also given by its
    message); [wrapError] is [fmt.Errorf] with one [%w]; [SyntaxError] and
    [UnmarshalTypeError] are the two errors of [encoding/json] met here. *)
Inductive error : Type :=
| errorString (s : string)
| wrapError (msg : string) (err : error)
| SyntaxError (msg : string)
| UnmarshalTypeError (Value : string) (Type_ : string) (Field : string).

Definition Error (e : error) : string :=
  match e with
  | errorString s => s
  | wrapError msg _ => msg
  | SyntaxError msg => msg
  | UnmarshalTypeError v t f =>
      if String.eqb f ""
      then "json: cannot unmarshal " ++ v ++ " into Go value of type " ++ t
      else "json: cannot unmarshal " ++ v ++ " into Go struct field ." ++ f
           ++ " of type " ++ t
  end.

(** [fmt.Errorf(prefix + "%w", err)]: the message is the format applied to
    [err.Error()], and the wrapped error stays reachable. *)
Definition Errorf_w (prefix : string) (err : error) : error :=
  wrapError (prefix ++ Error err) err.

Definition Unwrap (e : error) : option error :=
  match e with
  | wrapError _ err => Some err
  | _ => None
  end.

(** ** Characters *)

Definition chr (n : nat) : ascii := ascii_of_nat n.
Definition quote : ascii := chr 34.
Definition backslash : ascii := chr 92.

(** JSON payloads are written with apostrophes where JSON has double
    quotes; [Q] puts the double quotes back. *)
Fixpoint Q (s : string) : string :=
  match s with
  | EmptyString => EmptyString
  | String c r => String (if Ascii.eqb c "'" then quote else c) (Q r)
  end.

Definition code (c : ascii) : N := N_of_ascii c.

Definition in_range (lo hi : N) (c : ascii) : bool :=
  (lo <=? code c)%N && (code c <=? hi)%N.

Definition is_digit (c : ascii) : bool := in_range 48 57 c.
Definition is_digit19 (c : ascii) : bool := in_range 49 57 c.

Definition is_space (c : ascii) : bool :=
  Ascii.eqb c " " || Ascii.eqb c (chr 9) || Ascii.eqb c (chr 13)
  || Ascii.eqb c (chr 10).

Definition hex_val (c : ascii) : option N :=
  if is_digit c then Some (code c - 48)%N
  else if in_range 97 102 c then Some (code c - 87)%N
  else if in_range 65 70 c then Some (code c - 55)%N
  else None.

Definition snoc (s : string) (c : ascii) : string := s ++ String c "".

(** [strings.Contains s sub]. *)
Fixpoint includes (sub s : string) : bool :=
  if String.prefix sub s then true
  else match s with
       | EmptyString => false
       | String _ r => includes sub r
       end.

(** [utf8.EncodeRune]. *)
Definition byte (n : N) : ascii := ascii_of_N n.

Definition encode_rune (r : N) : string :=
  if (r <? 128)%N then String (byte r) ""
  else if (r <? 2048)%N then
    String (byte (192 + r / 64)) (String (byte (128 + r mod 64)) "")
  else if (r <? 65536)%N then
    String (byte (224 + r / 4096))
      (String (byte (128 + (r / 64) mod 64))
         (String (byte (128 + r mod 64)) ""))
  else
    String (byte (240 + r / 262144))
      (String (byte (128 + (r / 4096) mod 64))
         (String (byte (128 + (r / 64) mod 64))
            (String (byte (128 + r mod 64)) ""))).

Definition ReplacementChar : N := 65533.

(** The length of the UTF-8 sequence a byte begins, 0 when it begins
    none, and the range its second byte must lie in ([utf8]'s [first] and
    [acceptRanges]). *)
Definition sequence_length (c : ascii) : nat :=
  if (code c <? 128)%N then 1
  else if in_range 194 223 c then 2
  else if in_range 224 239 c then 3
  else if in_range 240 244 c then 4
  else 0.

Definition second_in_range (c1 c2 : ascii) : bool :=
  if (code c1 =? 224)%N then in_range 160 191 c2
  else if (code c1 =? 237)%N then in_range 128 159 c2
  else if (code c1 =? 240)%N then in_range 144 191 c2
  else if (code c1 =? 244)%N then in_range 128 143 c2
  else in_range 128 191 c2.

Definition is_continuation (c : ascii) : bool := in_range 128 191 c.

(** The number of bytes of the well-formed sequence a string begins
    with, 0 when it begins with none. *)
Definition sequence_prefix (s : string) : nat :=
  match s with
  | EmptyString => 0
  | String c1 r1 =>
      match sequence_length c1, r1 with
      | 1, _ => 1
      | 2, String c2 _ => if second_in_range c1 c2 then 2 else 0
      | 3, String c2 (String c3 _) =>
          if second_in_range c1 c2 && is_continuation c3 then 3 else 0
      | 4, String c2 (String c3 (String c4 _)) =>
          if second_in_range c1 c2 && is_continuation c3
             && is_continuation c4
          then 4 else 0
      | _, _ => 0
      end
  end.

(** What unquoting makes of the bytes of a string literal that are no
    well-formed UTF-8: [utf8.DecodeRune] gives U+FFFD for one byte and
    goes on at the next; a well-formed sequence is kept as it is. *)
Fixpoint coerce_utf8 (s : string) : string :=
  match s with
  | EmptyString => EmptyString
  | String c1 r1 =>
      match sequence_prefix s, r1 with
      | 1, _ => String c1 (coerce_utf8 r1)
      | 2, String c2 r2 => String c1 (String c2 (coerce_utf8 r2))
      | 3, String c2 (String c3 r3) =>
          String c1 (String c2 (String c3 (coerce_utf8 r3)))
      | 4, String c2 (String c3 (String c4 r4)) =>
          String c1 (String c2 (String c3 (String c4 (coerce_utf8 r4))))
      | _, _ =>
          String (ascii_of_N 239) (String (ascii_of_N 191)
            (String (ascii_of_N 189) (coerce_utf8 r1)))
      end
  end.

Definition is_high_surrogate (r : N) : bool := (55296 <=? r)%N && (r <? 56320)%N.
Definition is_low_surrogate (r : N) : bool := (56320 <=? r)%N && (r <? 57344)%N.

(** [utf16.DecodeRune] on a valid pair. *)
Definition decode_pair (hi lo : N) : N :=
  (65536 + (hi - 55296) * 1024 + (lo - 56320))%N.

(** The last element of a list. *)
Fixpoint last_error {A : Type} (l : list A) : option A :=
  match l with
  | [] => None
  | [a] => Some a
  | _ :: r => last_error r
  end.

(** ** JSON: scanning, parsing and decoding as [encoding/json] does *)

Module Json.

(** A JSON document.  A number keeps its literal. *)
Inductive value : Type :=
| Null
| Bool (b : bool)
| Number (lit : string)
| Str (s : string)
| Array (l : list value)
| Object (members : list (string * value)).

Inductive token : Type :=
| TLBrace | TRBrace | TLBracket | TRBracket | TColon | TComma
| TString (s : string)
| TNumber (lit : string)
| TTrue | TFalse | TNull.

(** *** The scanner

    One byte at a time, as [scanner.step] does.  The states of a number
    follow the library's [stateNeg], [state0], [state1], [stateDot],
    [stateDot0], [stateE], [stateESign] and [stateE0]. *)
Inductive NumState : Type :=
| stateNeg | state0 | state1 | stateDot | stateDot0
| stateE | stateESign | stateE0.

(** Inside a string literal the scanner also unquotes: [pend] is a high
    surrogate read from a [\u] escape that waits for its low half.  The
    bytes gathered are coerced to well-formed UTF-8 when the literal ends
    (an escape gives a well-formed sequence, which no byte beside it can
    extend, so that coercing at the end is coercing as the bytes come). *)
Inductive LexState : Type :=
| LStart
| LStr (acc : string) (pend : option N)
| LEsc (acc : string) (pend : option N)
| LHex (acc : string) (pend : option N) (read : nat) (r : N)
| LNum (lit : string) (st : NumState)
| LLit (rest : string) (t : token).

Definition syntax (msg : string) {A : Type} : error + A :=
  inl (SyntaxError msg).

(** A pending high surrogate that finds no partner becomes U+FFFD. *)
Definition flush (acc : string) (pend : option N) : string :=
  match pend with
  | Some _ => acc ++ encode_rune ReplacementChar
  | None => acc
  end.

(** The rune of a complete [\uXXXX] escape joins the string. *)
Definition add_escaped_rune (acc : string) (pend : option N) (r : N)
  : LexState :=
  match pend with
  | Some hi =>
      if is_low_surrogate r
      then LStr (acc ++ encode_rune (decode_pair hi r)) None
      else
        let acc' := acc ++ encode_rune ReplacementChar in
        if is_high_surrogate r then LStr acc' (Some r)
        else LStr (acc' ++ encode_rune r) None
  | None =>
      if is_high_surrogate r then LStr acc (Some r)
      else if is_low_surrogate r
           then LStr (acc ++ encode_rune ReplacementChar) None
           else LStr (acc ++ encode_rune r) None
  end.

Definition simple_escape (c : ascii) : option ascii :=
  if Ascii.eqb c quote then Some quote
  else if Ascii.eqb c backslash then Some backslash
  else if Ascii.eqb c "/" then Some "/"%char
  else if Ascii.eqb c "b" then Some (chr 8)
  else if Ascii.eqb c "f" then Some (chr 12)
  else if Ascii.eqb c "n" then Some (chr 10)
  else if Ascii.eqb c "r" then Some (chr 13)
  else if Ascii.eqb c "t" then Some (chr 9)
  else None.

(** A byte at the beginning of a token. *)
Definition step_start (c : ascii) : error + (list token * LexState) :=
  if is_space c then inr ([], LStart)
  else if Ascii.eqb c "{" then inr ([TLBrace], LStart)
  else if Ascii.eqb c "}" then inr ([TRBrace], LStart)
  else if Ascii.eqb c "[" then inr ([TLBracket], LStart)
  else if Ascii.eqb c "]" then inr ([TRBracket], LStart)
  else if Ascii.eqb c ":" then inr ([TColon], LStart)
  else if Ascii.eqb c "," then inr ([TComma], LStart)
  else if Ascii.eqb c quote then inr ([], LStr "" None)
  else if Ascii.eqb c "-" then inr ([], LNum "-" stateNeg)
  else if Ascii.eqb c "0" then inr ([], LNum "0" state0)
  else if is_digit19 c then inr ([], LNum (String c "") state1)
  else if Ascii.eqb c "t" then inr ([], LLit "rue" TTrue)
  else if Ascii.eqb c "f" then inr ([], LLit "alse" TFalse)
  else if Ascii.eqb c "n" then inr ([], LLit "ull" TNull)
  else syntax "invalid character looking for beginning of value".

(** The number is over at [c]: it is emitted and [c] starts afresh. *)
Definition end_number (lit : string) (c : ascii)
  : error + (list token * LexState) :=
  match step_start c with
  | inl e => inl e
  | inr (ts, st) => inr (TNumber lit :: ts, st)
  end.

Definition is_e (c : ascii) : bool := Ascii.eqb c "e" || Ascii.eqb c "E".

Definition step_number (lit : string) (st : NumState) (c : ascii)
  : error + (list token * LexState) :=
  let go st' := inr ([], LNum (snoc lit c) st') in
  match st with
  | stateNeg =>
      if Ascii.eqb c "0" then go state0
      else if is_digit19 c then go state1
      else syntax "invalid character in numeric literal"
  | state0 =>
      if Ascii.eqb c "." then go stateDot
      else if is_e c then go stateE
      else end_number lit c
  | state1 =>
      if is_digit c then go state1
      else if Ascii.eqb c "." then go stateDot
      else if is_e c then go stateE
      else end_number lit c
  | stateDot =>
      if is_digit c then go stateDot0
      else syntax "invalid character after decimal point in numeric literal"
  | stateDot0 =>
      if is_digit c then go stateDot0
      else if is_e c then go stateE
      else end_number lit c
  | stateE =>
      if Ascii.eqb c "+" || Ascii.eqb c "-" then go stateESign
      else if is_digit c then go stateE0
      else syntax "invalid character in exponent of numeric literal"
  | stateESign =>
      if is_digit c then go stateE0
      else syntax "invalid character in exponent of numeric literal"
  | stateE0 =>
      if is_digit c then go stateE0
      else end_number lit c
  end.

Definition step (st : LexState) (c : ascii)
  : error + (list token * LexState) :=
  match st with
  | LStart => step_start c
  | LStr acc pend =>
      if Ascii.eqb c backslash then inr ([], LEsc acc pend)
      else if Ascii.eqb c quote
           then inr ([TString (coerce_utf8 (flush acc pend))], LStart)
      else if (code c <? 32)%N
           then syntax "invalid character in string literal"
           else inr ([], LStr (snoc (flush acc pend) c) None)
  | LEsc acc pend =>
      if Ascii.eqb c "u" then inr ([], LHex acc pend 0 0%N)
      else match simple_escape c with
           | Some d => inr ([], LStr (snoc (flush acc pend) d) None)
           | None => syntax "invalid character in string escape code"
           end
  | LHex acc pend read r =>
      match hex_val c with
      | Some d =>
          let r' := (r * 16 + d)%N in
          if Nat.eqb read 3 then inr ([], add_escaped_rune acc pend r')
          else inr ([], LHex acc pend (S read) r')
      | None => syntax "invalid character in \u hexadecimal character escape"
      end
  | LNum lit st => step_number lit st c
  | LLit rest t =>
      match rest with
      | String e rest' =>
          if Ascii.eqb c e
          then match rest' with
               | EmptyString => inr ([t], LStart)
               | _ => inr ([], LLit rest' t)
               end
          else syntax "invalid character in literal"
      | EmptyString => syntax "invalid character in literal"
      end
  end.

(** The end of the input. *)
Definition finish (st : LexState) : error + list token :=
  match st with
  | LStart => inr []
  | LNum lit (state0 | state1 | stateDot0 | stateE0) => inr [TNumber lit]
  | _ => syntax "unexpected end of JSON input"
  end.

Fixpoint scan (st : LexState) (s : string) : error + list token :=
  match s with
  | EmptyString => finish st
  | String c r =>
      match step st c with
      | inl e => inl e
      | inr (ts, st') =>
          match scan st' r with
          | inl e => inl e
          | inr ts' => inr (ts ++ ts')%list
          end
      end
  end.

(** *** The parser

    The tokens drive a stack of open arrays and objects, the library's
    [parseState]. *)
Inductive Frame : Type :=
| InArray (elems : list value)
| InObject (members : list (string * value)) (key : option string).

Inductive Expect : Type :=
| EValue | EValueOrEnd | EKeyOrEnd | EKey | EColon | ECommaOrEnd
| EDone (v : value).

Definition maxNestingDepth : N := 10000.

Definition PState : Type := list Frame * Expect.

(** A complete value goes to the innermost open container. *)
Definition close_value (v : value) (stack : list Frame) : error + PState :=
  match stack with
  | [] => inr ([], EDone v)
  | InArray els :: st => inr (InArray (v :: els) :: st, ECommaOrEnd)
  | InObject ms (Some k) :: st =>
      inr (InObject ((k, v) :: ms) None :: st, ECommaOrEnd)
  | InObject _ None :: _ => syntax "invalid character after object key"
  end.

Definition push (f : Frame) (stack : list Frame) (e : Expect)
  : error + PState :=
  if (N.of_nat (length (f :: stack)) <=? maxNestingDepth)%N
  then inr (f :: stack, e)
  else syntax "exceeded max depth".

Definition begin_value (t : token) (stack : list Frame) : error + PState :=
  match t with
  | TLBrace => push (InObject [] None) stack EKeyOrEnd
  | TLBracket => push (InArray []) stack EValueOrEnd
  | TString s => close_value (Str s) stack
  | TNumber lit => close_value (Number lit) stack
  | TTrue => close_value (Bool true) stack
  | TFalse => close_value (Bool false) stack
  | TNull => close_value Null stack
  | _ => syntax "invalid character looking for beginning of value"
  end.

Definition end_array (stack : list Frame) : error + PState :=
  match stack with
  | InArray els :: st => close_value (Array (rev els)) st
  | _ => syntax "invalid character after object key:value pair"
  end.

Definition end_object (stack : list Frame) : error + PState :=
  match stack with
  | InObject ms None :: st => close_value (Object (rev ms)) st
  | _ => syntax "invalid character after array element"
  end.

Definition begin_key (k : string) (stack : list Frame) : error + PState :=
  match stack with
  | InObject ms None :: st => inr (InObject ms (Some k) :: st, EColon)
  | _ => syntax "invalid character looking for beginning of object key string"
  end.

Definition pstep (ps : PState) (t : token) : error + PState :=
  let (stack, e) := ps in
  match e, t with
  | EValue, _ => begin_value t stack
  | EValueOrEnd, TRBracket => end_array stack
  | EValueOrEnd, _ => begin_value t stack
  | EKeyOrEnd, TRBrace => end_object stack
  | (EKeyOrEnd | EKey), TString k => begin_key k stack
  | (EKeyOrEnd | EKey), _ =>
      syntax "invalid character looking for beginning of object key string"
  | EColon, TColon => inr (stack, EValue)
  | EColon, _ => syntax "invalid character after object key"
  | ECommaOrEnd, TComma =>
      match stack with
      | InArray _ :: _ => inr (stack, EValue)
      | InObject _ _ :: _ => inr (stack, EKey)
      | [] => syntax "invalid character after top-level value"
      end
  | ECommaOrEnd, TRBracket => end_array stack
  | ECommaOrEnd, TRBrace => end_object stack
  | ECommaOrEnd, _ => syntax "invalid character after array element"
  | EDone _, _ => syntax "invalid character after top-level value"
  end.

Fixpoint parse_tokens (ps : PState) (ts : list token) : error + value :=
  match ts with
  | [] =>
      match ps with
      | ([], EDone v) => inr v
      | _ => syntax "unexpected end of JSON input"
      end
  | t :: r =>
      match pstep ps t with
      | inl e => inl e
      | inr ps' => parse_tokens ps' r
      end
  end.

(** The syntax check of a payload and the document it denotes.  The text
    of a [SyntaxError] is indicative; its presence is what the handlers
    look at. *)
Definition parse (data : string) : error + value :=
  match scan LStart data with
  | inl e => inl e
  | inr ts => parse_tokens ([], EValue) ts
  end.

(** *** Decoding into Go values

    A JSON value of the wrong kind leaves the Go value as it is and is
    remembered as an [UnmarshalTypeError]; decoding goes on and the first
    such error is the one returned.  [null] leaves a string or a bool
    untouched and empties a slice. *)
Definition kind_name (v : value) : string :=
  match v with
  | Null => "null"
  | Bool _ => "bool"
  | Number _ => "number"
  | Str _ => "string"
  | Array _ => "array"
  | Object _ => "object"
  end.

Definition first_error (a b : option error) : option error :=
  match a with
  | Some _ => a
  | None => b
  end.

Definition decode_string (field : string) (v : value) (old : string)
  : string * option error :=
  match v with
  | Str s => (s, None)
  | Null => (old, None)
  | _ => (old, Some (UnmarshalTypeError (kind_name v) "string" field))
  end.

Definition decode_bool (field : string) (v : value) (old : bool)
  : bool * option error :=
  match v with
  | Bool b => (b, None)
  | Null => (old, None)
  | _ => (old, Some (UnmarshalTypeError (kind_name v) "bool" field))
  end.

(** The elements of an array go, in their order, into the elements the
    backing array of the slice already holds, past its length too; where
    it holds none the element starts from the empty string. *)
Fixpoint decode_elements (field : string) (l : list value)
    (backing : list string) : list string * option error :=
  match l with
  | [] => ([], None)
  | v :: r =>
      let (s, e) := decode_string field v (hd "" backing) in
      let (ss, e') := decode_elements field r (tl backing) in
      (s :: ss, first_error e e')
  end.

(** A slice of strings is given by its elements, [old], and by what its
    backing array holds beyond its length, [spare].  An array sets the
    length to the number of its elements and leaves the rest of the
    backing array; the empty array makes a new empty slice and [null] the
    nil slice. *)
Definition decode_strings (field : string) (v : value)
    (old spare : list string)
  : list string * list string * option error :=
  match v with
  | Array [] => ([], [], None)
  | Array l =>
      let (ss, e) := decode_elements field l (old ++ spare)%list in
      (ss, skipn (length l) (old ++ spare)%list, e)
  | Null => ([], [], None)
  | _ =>
      (old, spare, Some (UnmarshalTypeError (kind_name v) "[]string" field))
  end.

(** A field of a struct of type [T]: its Go name and type, the name in
    its [json] tag and the decoding of a value into it. *)
Record Field (T : Type) : Type := mkField {
  go_name : string;
  go_type : string;
  name : string;
  assign : value -> T -> T * option error
}.
Arguments mkField {T}.
Arguments go_name {T}.
Arguments go_type {T}.
Arguments name {T}.
Arguments assign {T}.

(** The text of the type of an unnamed struct, as [reflect] prints it:
    its fields, each with its tag quoted. *)
Definition tag_text (tag : string) : string :=
  String quote
    ("json:" ++ String backslash
       (String quote
          (tag ++ String backslash (String quote (String quote ""))))).

Definition field_text {T : Type} (f : Field T) : string :=
  go_name f ++ " " ++ go_type f ++ " " ++ tag_text (name f).

Definition struct_type {T : Type} (fields : list (Field T)) : string :=
  "struct { " ++ String.concat "; " (map field_text fields) ++ " }".

Definition upper (c : ascii) : ascii :=
  if in_range 97 122 c then byte (code c - 32) else c.

(** [foldName]: ASCII letters to upper case; of the other runes only the
    two that fold to an ASCII letter matter against ASCII field names,
    U+017F (bytes C5 BF) to S and U+212A (bytes E2 84 AA) to K. *)
Fixpoint foldName (s : string) : string :=
  match s with
  | EmptyString => EmptyString
  | String c1 r1 =>
      match r1 with
      | String c2 r2 =>
          if (code c1 =? 197)%N && (code c2 =? 191)%N
          then String "S" (foldName r2)
          else
            match r2 with
            | String c3 r3 =>
                if (code c1 =? 226)%N && (code c2 =? 132)%N
                   && (code c3 =? 170)%N
                then String "K" (foldName r3)
                else String (upper c1) (foldName r1)
            | EmptyString => String (upper c1) (foldName r1)
            end
      | EmptyString => String (upper c1) EmptyString
      end
  end.

(** A key selects the field with exactly that name, or else the first
    field whose name equals it under case folding; a key that selects no
    field is skipped. *)
Definition find_field {T : Type} (fields : list (Field T)) (key : string)
  : option (Field T) :=
  match find (fun f => String.eqb (name f) key) fields with
  | Some f => Some f
  | None =>
      find (fun f => String.eqb (foldName (name f)) (foldName key)) fields
  end.

Fixpoint decode_members {T : Type} (fields : list (Field T))
    (ms : list (string * value)) (t : T) (saved : option error)
  : T * option error :=
  match ms with
  | [] => (t, saved)
  | (k, v) :: r =>
      match find_field fields k with
      | Some f =>
          let (t', e) := assign f v t in
          decode_members fields r t' (first_error saved e)
      | None => decode_members fields r t saved
      end
  end.

Definition decode_struct {T : Type} (fields : list (Field T)) (v : value)
    (t : T) : T * option error :=
  match v with
  | Object ms => decode_members fields ms t None
  | Null => (t, None)
  | _ => (t, Some (UnmarshalTypeError (kind_name v) (struct_type fields) ""))
  end.

(** No key among the members selects the field tagged [f]. *)
Definition selects {T : Type} (fields : list (Field T)) (key f : string)
  : bool :=
  match find_field fields key with
  | Some fld => String.eqb (name fld) f
  | None => false
  end.

Definition omits {T : Type} (fields : list (Field T)) (f : string)
    (ms : list (string * value)) : bool :=
  forallb (fun kv => negb (selects fields (fst kv) f)) ms.

(** Every member that selects a field carries a value the field takes. *)
Definition fits {T : Type} (fields : list (Field T))
    (ms : list (string * value)) : Prop :=
  forall (key : string) (v : value) (fld : Field T),
    In (key, v) ms -> find_field fields key = Some fld ->
    forall t : T, snd (assign fld v t) = None.

(** [json.Unmarshal(data, &t)]: the struct after the call and the error
    returned.  A payload that is not valid JSON leaves [t] untouched. *)
Definition Unmarshal {T : Type} (fields : list (Field T)) (data : string)
    (t : T) : T * option error :=
  match parse data with
  | inl e => (t, Some e)
  | inr v => decode_struct fields v t
  end.

End Json.

(** ** The values exchanged with the runtime and the collaborators *)

(** [goai.CallToolParams], [goai.ToolResultContent], [goai.CallToolResult]
    and [goai.Tool] ([json.RawMessage] is the string of its bytes). *)
Record CallToolParams : Type := {
  Name : string;
  Arguments : string
}.

Record ToolResultContent : Type := {
  Type_ : string;
  Text : string
}.

Record CallToolResult : Type := {
  Content : list ToolResultContent;
  IsError : bool
}.

(** The zero value, [goai.CallToolResult{}]. *)
Definition emptyResult : CallToolResult :=
  {| Content := []; IsError := false |}.

(** What a handler hands back: [(goai.CallToolResult, error)], where
    [None] is the nil error. *)
Definition Return : Type := CallToolResult * option error.

(** [exec.Cmd]: [Args] holds the whole argument vector, program name
    first.  The lookup of the name in [PATH] is left to whoever runs it. *)
Record Cmd : Type := {
  Path : string;
  Args : list string
}.

(** [exec.Command(name, arg...)]; [exec.CommandContext] builds the same
    command (the context only serves to cancel a run, which is not
    modelled). *)
Definition exec_Command (name : string) (arg : list string) : Cmd :=
  {| Path := name; Args := name :: arg |}.

(** The values of go-github the repository tool builds or looks into.
    A Go pointer is an [option]; of each struct only the fields the
    package sets or reads are kept, the others stay at their zero value. *)
Record Repository : Type := {
  Repository_Name : option string;
  Repository_Description : option string;
  Repository_Private : option bool
}.

Record GitObject : Type := {
  SHA : option string
}.

Record Reference : Type := {
  Ref : option string;
  Object : option GitObject
}.

Record RepositoryCreateForkOptions : Type := {
  Organization : string;
  DefaultBranchOnly : bool
}.

Record BranchListOptions : Type := {
  Protected : option bool
}.

Record RequiredStatusChecks : Type := {
  Strict : bool;
  Contexts : list string
}.

Record PullRequestReviewsEnforcementRequest : Type := {
  DismissStaleReviews : bool;
  RequireCodeOwnerReviews : bool;
  RequiredApprovingReviewCount : Z
}.

Record ProtectionRequest : Type := {
  RequiredStatusChecks_ : option RequiredStatusChecks;
  RequiredPullRequestReviews : option PullRequestReviewsEnforcementRequest;
  EnforceAdmins : bool
}.

(** The collaborators of the package are interface values and values of
    other packages.  They are kept abstract: a handle for each interface
    value, the remote objects the handlers receive and pass on unread, and
    the library's log key for errors. *)
Class Collaborators : Type := {
  Logger : Type;
  CommandExecutor : Type;
  Client : Type;
  Span : Type;
  Branch : Type;
  Protection : Type;
  ErrorLogField : string
}.

Inductive Level : Type := LevelDebug | LevelInfo | LevelError.

(** A value given to the logger. *)
Inductive LogValue : Type :=
| VString (s : string)
| VStrings (l : list string)
| VInt (n : Z)
| VError (e : error).

Section Programs.

Context `{Collaborators}.

(** The calls of the remote client, [g.client.Repositories.*] and
    [g.client.Git.*], each with the type of what it returns once the
    [*github.Response] the handler ignores is dropped. *)
Inductive Remote : Type -> Type :=
| Repositories_Create (org : string) (repo : Repository)
  : Remote (option Repository * option error)
| Repositories_Delete (owner repo : string)
  : Remote (option error)
| Repositories_Edit (owner repo : string) (repository : Repository)
  : Remote (option Repository * option error)
| Repositories_CreateFork (owner repo : string)
    (opts : RepositoryCreateForkOptions)
  : Remote (option Repository * option error)
| Repositories_ListBranches (owner repo : string) (opts : BranchListOptions)
  : Remote (list Branch * option error)
| Git_GetRef (owner repo ref : string)
  : Remote (option Reference * option error)
| Git_CreateRef (owner repo : string) (ref : Reference)
  : Remote (option Reference * option error)
| Repositories_UpdateBranchProtection (owner repo branch : string)
    (preq : ProtectionRequest)
  : Remote (option Protection * option error).

(** Every call a handler makes to a collaborator, with the type of its
    answer: the tracer ([goai.StartSpan] and the span's methods), the
    logger ([WithFields(fields).<Level>(msg, args...)]), a process run
    through the injected executor or straight through [os/exec], and the
    remote client. *)
Inductive Call : Type -> Type :=
| StartSpan (name : string) : Call Span
| SetAttributes (sp : Span) (attrs : list (string * string)) : Call unit
| RecordError (sp : Span) (err : error) : Call unit
| SpanEnd (sp : Span) : Call unit
| Log (l : Logger) (fields : list (string * LogValue)) (lvl : Level)
    (msg : string) (args : list LogValue) : Call unit
| ExecuteCommand (x : CommandExecutor) (cmd : Cmd)
  : Call (string * option error)
| CombinedOutput (cmd : Cmd) : Call (string * option error)
| GitHubCall (c : Client) {X : Type} (r : Remote X) : Call X.

(** A handler body: it returns, panics, or makes a call and goes on with
    the answer. *)
Inductive Prog (R : Type) : Type :=
| Ret (r : R)
| Panic (msg : string)
| Do {X : Type} (c : Call X) (k : X -> Prog R).

Arguments Ret {R}.
Arguments Panic {R}.
Arguments Do {R X}.

Fixpoint bind {A B : Type} (p : Prog A) (f : A -> Prog B) : Prog B :=
  match p with
  | Ret a => f a
  | Panic m => Panic m
  | Do c k => Do c (fun x => bind (k x) f)
  end.

Definition call {X : Type} (c : Call X) : Prog X := Do c Ret.

(** [defer d] in front of [body]: [d] runs when [body] is left, by a
    return or by a panic. *)
Fixpoint defer {R : Type} (d : Prog unit) (body : Prog R) : Prog R :=
  match body with
  | Ret r => bind d (fun _ => Ret r)
  | Panic m => bind d (fun _ => Panic m)
  | Do c k => Do c (fun x => defer d (k x))
  end.

(** *** Running a program

    The world outside answers each call and moves on; [W] is its state. *)
Definition Env (W : Type) : Type := forall X : Type, Call X -> W -> X * W.

Inductive Step : Type :=
| Answered {X : Type} (c : Call X) (x : X).

Inductive Outcome (R : Type) : Type :=
| Returned (r : R)
| Panicked (msg : string).

Arguments Returned {R}.
Arguments Panicked {R}.

Record Run (W R : Type) : Type := mkRun {
  outcome : Outcome R;
  trace : list Step;
  final : W
}.
Arguments mkRun {W R}.
Arguments outcome {W R}.
Arguments trace {W R}.
Arguments final {W R}.

Fixpoint run {W R : Type} (env : Env W) (p : Prog R) (w : W) : Run W R :=
  match p with
  | Ret r => mkRun (Returned r) [] w
  | Panic m => mkRun (Panicked m) [] w
  | Do c k =>
      let a := env _ c w in
      let r := run env (k (fst a)) (snd a) in
      mkRun (outcome r) (Answered c (fst a) :: trace r) (final r)
  end.

(** The remote calls among the steps of a run. *)
Definition is_remote (s : Step) : bool :=
  match s with
  | Answered c _ =>
      match c with
      | GitHubCall _ _ => true
      | _ => false
      end
  end.

Definition remote_calls (t : list Step) : list Step := filter is_remote t.

(** The processes started among the steps of a run, each with the
    combined output and the error it ended with. *)
Definition spawned (s : Step) : option (Cmd * (string * option error)) :=
  match s with
  | Answered c x =>
      match c in Call X return X -> option (Cmd * (string * option error)) with
      | ExecuteCommand _ cmd => fun x => Some (cmd, x)
      | CombinedOutput cmd => fun x => Some (cmd, x)
      | _ => fun _ => None
      end x
  end.

Definition pick {A B : Type} (f : A -> option B) (l : list A) : list B :=
  flat_map (fun a => match f a with Some b => [b] | None => [] end) l.

Definition processes (t : list Step)
  : list (Cmd * (string * option error)) := pick spawned t.

(** The answers to the lookups and to the creations of a reference, and
    the branch protections requested. *)
Definition GetRef_answer (s : Step)
  : option (option Reference * option error) :=
  match s with
  | Answered c x =>
      match c in Call X return X -> option _ with
      | GitHubCall _ r =>
          match r in Remote X return X -> option _ with
          | Git_GetRef _ _ _ => fun x => Some x
          | _ => fun _ => None
          end
      | _ => fun _ => None
      end x
  end.

Definition CreateRef_answer (s : Step)
  : option (option Reference * option error) :=
  match s with
  | Answered c x =>
      match c in Call X return X -> option _ with
      | GitHubCall _ r =>
          match r in Remote X return X -> option _ with
          | Git_CreateRef _ _ _ => fun x => Some x
          | _ => fun _ => None
          end
      | _ => fun _ => None
      end x
  end.

Definition protection_request (s : Step)
  : option (string * string * string * ProtectionRequest) :=
  match s with
  | Answered c _ =>
      match c with
      | GitHubCall _ r =>
          match r with
          | Repositories_UpdateBranchProtection owner repo branch preq =>
              Some (owner, repo, branch, preq)
          | _ => None
          end
      | _ => None
      end
  end.

(** *** More to read off a run *)

(** A call of any answer type, and the calls of a run in their order, the
    answers left aside. *)
Definition AnyCall : Type := {X : Type & Call X}.

Definition any {X : Type} (c : Call X) : AnyCall := existT _ X c.

Definition made (s : Step) : AnyCall :=
  match s with
  | Answered c _ => any c
  end.

Definition calls (t : list Step) : list AnyCall := map made t.

(** The calls that open or close a span. *)
Definition is_span_boundary (c : AnyCall) : bool :=
  match projT2 c with
  | StartSpan _ => true
  | SpanEnd _ => true
  | _ => false
  end.

(** The calls to the tracer. *)
Definition is_tracer (c : AnyCall) : bool :=
  match projT2 c with
  | StartSpan _ => true
  | SetAttributes _ _ => true
  | RecordError _ _ => true
  | SpanEnd _ => true
  | _ => false
  end.

(** The errors recorded on a span. *)
Definition recorded_error (s : Step) : option error :=
  match s with
  | Answered c _ =>
      match c with
      | RecordError _ err => Some err
      | _ => None
      end
  end.

(** Who ran a process: the executor injected, or [os/exec] directly. *)
Definition runner (s : Step) : option (option CommandExecutor) :=
  match s with
  | Answered c _ =>
      match c with
      | ExecuteCommand x _ => Some (Some x)
      | CombinedOutput _ => Some None
      | _ => None
      end
  end.

(** The requests sent to the remote, and the error each came back with. *)
Definition AnyRemote : Type := {X : Type & Remote X}.

Definition asked {X : Type} (r : Remote X) : AnyRemote := existT _ X r.

Definition remote_request (s : Step) : option AnyRemote :=
  match s with
  | Answered c _ =>
      match c with
      | GitHubCall _ r => Some (asked r)
      | _ => None
      end
  end.

Definition answer_error {X : Type} (r : Remote X) : X -> option error :=
  match r in Remote X return X -> option error with
  | Repositories_Create _ _ => fun x => snd x
  | Repositories_Delete _ _ => fun x => x
  | Repositories_Edit _ _ _ => fun x => snd x
  | Repositories_CreateFork _ _ _ => fun x => snd x
  | Repositories_ListBranches _ _ _ => fun x => snd x
  | Git_GetRef _ _ _ => fun x => snd x
  | Git_CreateRef _ _ _ => fun x => snd x
  | Repositories_UpdateBranchProtection _ _ _ _ => fun x => snd x
  end.

Definition remote_error (s : Step) : option (option error) :=
  match s with
  | Answered c x =>
      match c in Call X return X -> option (option error) with
      | GitHubCall _ r => fun x => Some (answer_error r x)
      | _ => fun _ => None
      end x
  end.

End Programs.

Arguments Ret {H R}.
Arguments Panic {H R}.
Arguments Do {H R X}.
Arguments Returned {R}.
Arguments Panicked {R}.
Arguments mkRun {H W R}.
Arguments outcome {H W R}.
Arguments trace {H W R}.
Arguments final {H W R}.

Declare Scope prog_scope.
Delimit Scope prog_scope with prog.
Notation "x <- p ;; q" := (bind p (fun x => q))
  (at level 61, p at next level, right associativity) : prog_scope.
Notation "' pat <- p ;; q" := (bind p (fun x => match x with pat => q end))
  (at level 61, pat pattern, p at next level, right associativity)
  : prog_scope.
Notation "p ;; q" := (bind p (fun _ => q))
  (at level 61, right associativity) : prog_scope.

Open Scope prog_scope.

(** [goai.Tool].  The handler's [context.Context] carries cancellation
    and the parent span only, and is left out. *)
Record Tool `{Collaborators} : Type := {
  ToolName : string;
  ToolDescription : string;
  InputSchema : string;
  Handler : CallToolParams -> Prog Return
}.

(** The names listed under ["required"] in a schema document. *)
Definition strings_of (v : Json.value) : list string :=
  match v with
  | Json.Array l =>
      flat_map (fun x => match x with Json.Str s => [s] | _ => [] end) l
  | _ => []
  end.

Definition required_fields (schema : string) : list string :=
  match Json.parse schema with
  | inr (Json.Object ms) =>
      flat_map (fun kv => if String.eqb (fst kv) "required"
                          then strings_of (snd kv) else []) ms
  | _ => []
  end.

(** The names declared under ["properties"] in a schema document, and the
    values its property [operation] lists under ["enum"]. *)
Definition member (key : string) (v : Json.value) : list Json.value :=
  match v with
  | Json.Object ms =>
      flat_map (fun kv => if String.eqb (fst kv) key then [snd kv] else [])
        ms
  | _ => []
  end.

Definition keys_of (v : Json.value) : list string :=
  match v with
  | Json.Object ms => map fst ms
  | _ => []
  end.

Definition schema_properties (schema : string) : list string :=
  match Json.parse schema with
  | inr v => flat_map keys_of (member "properties" v)
  | inl _ => []
  end.

Definition operation_enum (schema : string) : list string :=
  match Json.parse schema with
  | inr v =>
      flat_map strings_of
        (flat_map (member "enum")
           (flat_map (member "operation") (member "properties" v)))
  | inl _ => []
  end.

(** Modelled from the spec: [returnErrorOutput] is called by three
    handlers and declared in none of the sources given.  It takes the error
    alone and builds the envelope of a handled failure (spec 3, case (b)):
    [is_error=true] with one text payload, the error's own message (that
    message is the whole text: spec 8 has an unsupported operation give
    the text of the error built for it). *)
Definition returnErrorOutput (err : error) : CallToolResult :=
  {| Content := [ {| Type_ := "text"; Text := Error err |} ];
     IsError := true |}.

(** ** get_weather *)

Module GetWeather.

Record input : Type := {
  Location : string
}.

(** The zero value of [var input struct { ... }]. *)
Definition zero : input := {| Location := "" |}.

Definition fields : list (Json.Field input) :=
  [ Json.mkField "Location" "string" "location" (fun v t =>
      let (s, e) := Json.decode_string "location" v (Location t) in
      ({| Location := s |}, e)) ].

Definition Schema : string := Q
"{
  'type': 'object',
  'properties': {
    'location': {
      'type': 'string',
      'description': 'The city and state, e.g. San Francisco, CA'
    }
  },
  'required': ['location']
}".

Section Handler.

Context `{Collaborators}.

(** The closure deferred second reads the function's [err], which no
    statement assigns: the [err] of the [if] is a variable of its own.  It
    runs before [span.End()]. *)
Definition handler (params : CallToolParams) : Prog Return :=
  span <- call (StartSpan (Name params ++ ".Handler")) ;;
  call (SetAttributes span [ ("tool_name", Name params);
                             ("tool_argument", Arguments params) ]) ;;
  defer (call (SpanEnd span)) (
    let err : option error := None in
    defer (match err with
           | Some e => call (RecordError span e)
           | None => Ret tt
           end) (
      let input := zero in
      let (input, err) := Json.Unmarshal fields (Arguments params) input in
      match err with
      | Some err => Ret (emptyResult, Some err)
      | None =>
          Ret ({| Content :=
                    [ {| Type_ := "text";
                         Text := "Weather in " ++ Location input
                                 ++ ": Sunny, 72°F" |} ];
                  IsError := false |}, None)
      end)).

Definition GetWeather : Tool := {|
  ToolName := "get_weather";
  ToolDescription := "Get the current weather for a given location.";
  InputSchema := Schema;
  Handler := handler
|}.

End Handler.

End GetWeather.

(** ** bash *)

Module Bash.

Definition BashToolName : string := "bash".

(** [Args_spare] is no field of the Go struct: it is what the backing
    array of the slice [Args] holds beyond the length of [Args], which
    only a later decoding into the same slice can bring back. *)
Record input : Type := {
  Command : string;
  Args : list string;
  Args_spare : list string
}.

Definition zero : input :=
  {| Command := ""; Args := []; Args_spare := [] |}.

Definition fields : list (Json.Field input) :=
  [ Json.mkField "Command" "string" "command" (fun v t =>
      let (s, e) := Json.decode_string "command" v (Command t) in
      ({| Command := s; Args := Args t; Args_spare := Args_spare t |}, e));
    Json.mkField "Args" "[]string" "args" (fun v t =>
      let (l, e) :=
        Json.decode_strings "args" v (Args t) (Args_spare t) in
      ({| Command := Command t; Args := fst l; Args_spare := snd l |}, e)) ].

Definition Schema : string := Q
"{
  'type': 'object',
  'properties': {
    'command': {
      'type': 'string',
      'description': 'Bash command or script to execute'
    },
    'args': {
      'type': 'array',
      'items': {
        'type': 'string'
      },
      'description': 'Additional arguments for the command'
    }
  },
  'required': ['command']
}".

Section Handler.

Context `{Collaborators}.

(** The [Bash] wrapper.  Modelled from the spec: the interface
    [CommandExecutor] is declared in none of the sources given; it has the
    single operation of spec 4.3, run a constructed command to completion
    and return its combined output and an error, which is the call
    [ExecuteCommand]. *)
Record Bash : Type := {
  logger : Logger;
  cmdExecutor : CommandExecutor
}.

Definition handler (b : Bash) (params : CallToolParams) : Prog Return :=
  let input := zero in
  call (Log (logger b) [ ("tool", VString BashToolName) ] LevelInfo
          "Received input" [ VString "input"; VString (Arguments params) ]) ;;
  let (input, err) := Json.Unmarshal fields (Arguments params) input in
  match err with
  | Some err =>
      call (Log (logger b) [ ("tool", VString BashToolName) ] LevelError
              "Failed to parse input" [ VString "error"; VError err ]) ;;
      Ret (emptyResult, Some (Errorf_w "failed to parse input: " err))
  | None =>
      call (Log (logger b) [] LevelInfo "Executing bash command"
              [ VString "command"; VString (Command input);
                VString "args"; VStrings (Args input) ]) ;;
      let cmd :=
        exec_Command "bash" (["-c"; Command input] ++ Args input)%list in
      ' (output, err) <- call (ExecuteCommand (cmdExecutor b) cmd) ;;
      match err with
      | Some err =>
          call (Log (logger b) [ ("tool", VString BashToolName) ] LevelError
                  "Failed to execute bash command"
                  [ VString "error"; VError err ]) ;;
          Ret (returnErrorOutput err, None)
      | None =>
          let o := output in
          call (Log (logger b)
                  [ ("tool", VString BashToolName);
                    ("output_length", VInt (Z.of_nat (String.length o))) ]
                  LevelInfo "Bash command executed successfully" []) ;;
          Ret ({| Content := [ {| Type_ := "text"; Text := o |} ];
                  IsError := false |}, None)
      end
  end.

Definition BashAllInOneTool (b : Bash) : Tool := {|
  ToolName := BashToolName;
  ToolDescription := "Execute bash commands with specified script or command";
  InputSchema := Schema;
  Handler := handler b
|}.

End Handler.

End Bash.

(** ** git *)

Module Git.

Definition GitToolName : string := "git".

Record GitConfig : Type := {
  DefaultRepoPath : string;
  BlockedCommands : list string
}.

(** [Args_spare] is no field of the Go struct: it is what the backing
    array of the slice [Args] holds beyond the length of [Args]. *)
Record input : Type := {
  Command : string;
  RepoPath : string;
  Args : list string;
  Args_spare : list string
}.

Definition zero : input :=
  {| Command := ""; RepoPath := ""; Args := []; Args_spare := [] |}.

Definition fields : list (Json.Field input) :=
  [ Json.mkField "Command" "string" "command" (fun v t =>
      let (s, e) := Json.decode_string "command" v (Command t) in
      ({| Command := s; RepoPath := RepoPath t; Args := Args t;
          Args_spare := Args_spare t |}, e));
    Json.mkField "RepoPath" "string" "repo_path" (fun v t =>
      let (s, e) := Json.decode_string "repo_path" v (RepoPath t) in
      ({| Command := Command t; RepoPath := s; Args := Args t;
          Args_spare := Args_spare t |}, e));
    Json.mkField "Args" "[]string" "args" (fun v t =>
      let (l, e) :=
        Json.decode_strings "args" v (Args t) (Args_spare t) in
      ({| Command := Command t; RepoPath := RepoPath t; Args := fst l;
          Args_spare := snd l |}, e)) ].

Definition Schema : string := Q
"{
  'type': 'object',
  'properties': {
    'command': {
      'type': 'string',
      'description': 'Git command to execute'
    },
    'repo_path': {
      'type': 'string',
      'description': 'Path to Git repository'
    },
    'args': {
      'type': 'array',
      'items': {
        'type': 'string'
      },
      'description': 'Arguments for the Git command'
    }
  },
  'required': ['command', 'repo_path']
}".

Section Handler.

Context `{Collaborators}.

Record Git : Type := {
  logger : Logger;
  config : GitConfig
}.

Definition NewGit (logger : Logger) (config : GitConfig) : Git :=
  {| logger := logger; config := config |}.

Definition handler (g : Git) (params : CallToolParams) : Prog Return :=
  span <- call (StartSpan (Name params ++ ".Handler")) ;;
  call (SetAttributes span [ ("tool_name", Name params);
                             ("tool_argument", Arguments params) ]) ;;
  defer (call (SpanEnd span)) (
    call (Log (logger g)
            [ ("tool_name", VString (Name params));
              ("arguments", VString (Arguments params)) ]
            LevelInfo "Received input" []) ;;
    let input := zero in
    let (input, err) := Json.Unmarshal fields (Arguments params) input in
    match err with
    | Some err =>
        call (Log (logger g)
                [ (ErrorLogField, VError err);
                  ("tool", VString GitToolName);
                  ("raw_input", VString (Arguments params)) ]
                LevelError "Failed to unmarshal input parameters" []) ;;
        call (RecordError span err) ;;
        Ret (emptyResult, Some (Errorf_w "failed to unmarshal input: " err))
    | None =>
        let args :=
          (["-C"; RepoPath input; Command input] ++ Args input)%list in
        call (Log (logger g)
                [ ("command", VString (Command input));
                  ("repo_path", VString (RepoPath input));
                  ("args", VStrings args) ]
                LevelDebug "Executing git command" []) ;;
        let cmd := exec_Command "git" args in
        call (Log (logger g)
                [ ("command", VString (Command input));
                  ("repo_path", VString (RepoPath input));
                  ("args", VStrings args) ]
                LevelDebug "Executing git command" []) ;;
        ' (output, err) <- call (CombinedOutput cmd) ;;
        match err with
        | Some err =>
            call (Log (logger g)
                    [ (ErrorLogField, VError err);
                      ("output", VString output);
                      ("command", VString (Command input)) ]
                    LevelError "Git command failed" []) ;;
            call (RecordError span err) ;;
            Ret (returnErrorOutput err, None)
        | None =>
            call (Log (logger g)
                    [ ("tool", VString GitToolName);
                      ("command", VString (Command input));
                      ("output", VString output) ]
                    LevelDebug "Git command completed successfully" []) ;;
            Ret ({| Content := [ {| Type_ := "text"; Text := output |} ];
                    IsError := false |}, None)
        end
    end).

Definition GitAllInOneTool (g : Git) : Tool := {|
  ToolName := GitToolName;
  ToolDescription :=
    "Performs any Git operation based on the provided command";
  InputSchema := Schema;
  Handler := handler g
|}.

End Handler.

End Git.

(** ** The GitHub repository tool *)

Module GitHub.

Record input : Type := {
  Operation : string;
  Owner : string;
  Repo : string;
  Description : string;
  Private : bool;
  Branch_ : string;
  SourceBranch : string
}.

Definition zero : input :=
  {| Operation := ""; Owner := ""; Repo := ""; Description := "";
     Private := false; Branch_ := ""; SourceBranch := "" |}.

Definition set_string (go tag : string) (get : input -> string)
    (set : string -> input -> input) : Json.Field input :=
  Json.mkField go "string" tag (fun v t =>
    let (s, e) := Json.decode_string tag v (get t) in (set s t, e)).

Definition fields : list (Json.Field input) :=
  [ set_string "Operation" "operation" Operation (fun s t =>
      {| Operation := s; Owner := Owner t; Repo := Repo t;
         Description := Description t; Private := Private t;
         Branch_ := Branch_ t; SourceBranch := SourceBranch t |});
    set_string "Owner" "owner" Owner (fun s t =>
      {| Operation := Operation t; Owner := s; Repo := Repo t;
         Description := Description t; Private := Private t;
         Branch_ := Branch_ t; SourceBranch := SourceBranch t |});
    set_string "Repo" "repo" Repo (fun s t =>
      {| Operation := Operation t; Owner := Owner t; Repo := s;
         Description := Description t; Private := Private t;
         Branch_ := Branch_ t; SourceBranch := SourceBranch t |});
    set_string "Description" "description" Description (fun s t =>
      {| Operation := Operation t; Owner := Owner t; Repo := Repo t;
         Description := s; Private := Private t;
         Branch_ := Branch_ t; SourceBranch := SourceBranch t |});
    Json.mkField "Private" "bool" "private" (fun v t =>
      let (b, e) := Json.decode_bool "private" v (Private t) in
      ({| Operation := Operation t; Owner := Owner t; Repo := Repo t;
          Description := Description t; Private := b;
          Branch_ := Branch_ t; SourceBranch := SourceBranch t |}, e));
    set_string "Branch" "branch" Branch_ (fun s t =>
      {| Operation := Operation t; Owner := Owner t; Repo := Repo t;
         Description := Description t; Private := Private t;
         Branch_ := s; SourceBranch := SourceBranch t |});
    set_string "SourceBranch" "source_branch" SourceBranch (fun s t =>
      {| Operation := Operation t; Owner := Owner t; Repo := Repo t;
         Description := Description t; Private := Private t;
         Branch_ := Branch_ t; SourceBranch := s |}) ].

Definition Schema : string := Q
"{
  'type': 'object',
  'properties': {
    'operation': {
      'type': 'string',
      'enum': ['create', 'delete', 'update', 'fork', 'list_branches', 'create_branch', 'protect_branch'],
      'description': 'Repository operation to perform'
    },
    'owner': {
      'type': 'string',
      'description': 'Repository owner'
    },
    'repo': {
      'type': 'string',
      'description': 'Repository name'
    },
    'description': {
      'type': 'string',
      'description': 'Repository description'
    },
    'private': {
      'type': 'boolean',
      'description': 'Whether the repository should be private'
    },
    'branch': {
      'type': 'string',
      'description': 'Branch name for branch operations'
    },
    'source_branch': {
      'type': 'string',
      'description': 'Source branch for new branch creation'
    }
  },
  'required': ['operation']
}".

(** The operations the [switch] has a case for. *)
Definition operations : list string :=
  [ "create"; "delete"; "update"; "fork"; "list_branches"; "create_branch";
    "protect_branch" ].

Section Handler.

Context `{Collaborators}.

(** Modelled from the spec: the declaration of the struct [GitHub] is in
    none of the sources given; the handler uses its two fields, the logger
    and the client captured at construction (spec 3). *)
Record GitHub : Type := {
  client : Client;
  logger : Logger
}.

(** What the [interface{}] variable [result] can hold. *)
Inductive Result : Type :=
| nilResult
| RepositoryResult (r : option Repository)
| StatusResult (m : list (string * string))
| BranchesResult (l : list Branch)
| ReferenceResult (r : option Reference)
| ProtectionResult (p : option Protection).

(** [mustMarshal] is declared in none of the sources given and the spec is
    silent on it: it is a parameter, a function from the result to the text
    of its JSON form. *)
Variable mustMarshal : Result -> string.

(** The statements after the [switch]. *)
Definition after_switch (g : GitHub) (params : CallToolParams) (input : input)
    (result : Result) (err : option error) : Prog Return :=
  match err with
  | Some err =>
      call (Log (logger g)
              [ ("tool", VString (Name params));
                (ErrorLogField, VError err);
                ("operation", VString (Operation input)) ]
              LevelError "GitHub repository operation failed" []) ;;
      Ret (returnErrorOutput
             (Errorf_w ("github repository " ++ Operation input ++ " error: ")
                err), None)
  | None =>
      let m := mustMarshal result in
      call (Log (logger g)
              [ ("tool", VString (Name params));
                ("operation", VString (Operation input));
                ("result_length", VInt (Z.of_nat (String.length m))) ]
              LevelInfo "GitHub repository operation completed successfully"
              []) ;;
      Ret ({| Content := [ {| Type_ := "json"; Text := m |} ];
              IsError := false |}, None)
  end.

(** The text of the run-time error of a nil pointer dereference. *)
Definition nil_dereference : string :=
  "runtime error: invalid memory address or nil pointer dereference".

(** The [switch] on [input.Operation].  In the case [create_branch] the
    [err] of the reference lookup is declared by [:=] inside the case, and
    the error of [CreateRef] goes to the blank identifier: the [err] read
    after the [switch] is still nil there. *)
Definition switch (g : GitHub) (params : CallToolParams) (input : input)
  : Prog Return :=
  let result := nilResult in
  let err : option error := None in
  let op := Operation input in
  if String.eqb op "create" then
    ' (r, err) <- call (GitHubCall (client g) (Repositories_Create ""
                    {| Repository_Name := Some (Repo input);
                       Repository_Description := Some (Description input);
                       Repository_Private := Some (Private input) |})) ;;
    after_switch g params input (RepositoryResult r) err
  else if String.eqb op "delete" then
    err <- call (GitHubCall (client g)
                   (Repositories_Delete (Owner input) (Repo input))) ;;
    match err with
    | None =>
        after_switch g params input (StatusResult [("status", "deleted")]) err
    | Some _ => after_switch g params input result err
    end
  else if String.eqb op "update" then
    ' (r, err) <- call (GitHubCall (client g)
                    (Repositories_Edit (Owner input) (Repo input)
                       {| Repository_Name := None;
                          Repository_Description := Some (Description input);
                          Repository_Private := Some (Private input) |})) ;;
    after_switch g params input (RepositoryResult r) err
  else if String.eqb op "fork" then
    ' (r, err) <- call (GitHubCall (client g)
                    (Repositories_CreateFork (Owner input) (Repo input)
                       {| Organization := ""; DefaultBranchOnly := false |})) ;;
    after_switch g params input (RepositoryResult r) err
  else if String.eqb op "list_branches" then
    ' (l, err) <- call (GitHubCall (client g)
                    (Repositories_ListBranches (Owner input) (Repo input)
                       {| Protected := None |})) ;;
    after_switch g params input (BranchesResult l) err
  else if String.eqb op "create_branch" then
    ' (ref, err') <- call (GitHubCall (client g)
                      (Git_GetRef (Owner input) (Repo input)
                         ("refs/heads/" ++ SourceBranch input))) ;;
    match err' with
    | Some err' => Ret (emptyResult, Some err')
    | None =>
        match ref with
        | None => Panic nil_dereference
        | Some ref =>
            match Object ref with
            | None =>
                Panic nil_dereference
            | Some object =>
                ' (r, _) <- call (GitHubCall (client g)
                              (Git_CreateRef (Owner input) (Repo input)
                                 {| Ref := Some ("refs/heads/"
                                                 ++ Branch_ input);
                                    Object :=
                                      Some {| SHA := SHA object |} |})) ;;
                after_switch g params input (ReferenceResult r) err
            end
        end
    end
  else if String.eqb op "protect_branch" then
    ' (p, err) <- call (GitHubCall (client g)
                    (Repositories_UpdateBranchProtection (Owner input)
                       (Repo input) (Branch_ input)
                       {| RequiredStatusChecks_ :=
                            Some {| Strict := true; Contexts := [] |};
                          RequiredPullRequestReviews :=
                            Some {| DismissStaleReviews := false;
                                    RequireCodeOwnerReviews := false;
                                    RequiredApprovingReviewCount := 1 |};
                          EnforceAdmins := false |})) ;;
    after_switch g params input (ProtectionResult p) err
  else
    Ret (returnErrorOutput (errorString ("unsupported operation: " ++ op)),
         None).

Definition handleRepositoryOperation (g : GitHub) (params : CallToolParams)
  : Prog Return :=
  span <- call (StartSpan (Name params ++ ".Handler")) ;;
  defer (call (SpanEnd span)) (
    let input := zero in
    call (Log (logger g)
            [ ("tool", VString (Name params));
              ("operation", VString (Arguments params)) ]
            LevelInfo "handling repository operation" []) ;;
    let (input, err) := Json.Unmarshal fields (Arguments params) input in
    match err with
    | Some err =>
        Ret (emptyResult, Some (Errorf_w "failed to unmarshal input: " err))
    | None => switch g params input
    end).

Definition GetRepositoryTool (GitHubRepositoryToolName : string) (g : GitHub)
  : Tool := {|
  ToolName := GitHubRepositoryToolName;
  ToolDescription :=
    "Manages GitHub repositories - create, delete, update, fork";
  InputSchema := Schema;
  Handler := handleRepositoryOperation g
|}.

End Handler.

End GitHub.

(** ** The four tools side by side *)

Inductive ToolKind : Type := get_weather | bash | git | github_repository.

Definition schema_of (k : ToolKind) : string :=
  match k with
  | get_weather => GetWeather.Schema
  | bash => Bash.Schema
  | git => Git.Schema
  | github_repository => GitHub.Schema
  end.

(** The error [json.Unmarshal] returns on a payload, for each tool's input
    structure. *)
Definition decode_error (k : ToolKind) (arguments : string) : option error :=
  match k with
  | get_weather =>
      snd (Json.Unmarshal GetWeather.fields arguments GetWeather.zero)
  | bash => snd (Json.Unmarshal Bash.fields arguments Bash.zero)
  | git => snd (Json.Unmarshal Git.fields arguments Git.zero)
  | github_repository =>
      snd (Json.Unmarshal GitHub.fields arguments GitHub.zero)
  end.

(** The error the handler makes of a decoding error. *)
Definition decode_failure (k : ToolKind) (err : error) : error :=
  match k with
  | get_weather => err
  | bash => Errorf_w "failed to parse input: " err
  | git | github_repository => Errorf_w "failed to unmarshal input: " err
  end.

(** The type of the payload of a success. *)
Definition content_type (k : ToolKind) : string :=
  match k with
  | github_repository => "json"
  | _ => "text"
  end.

(** The string fields of the input structure a payload decodes to, by
    tag. *)
Definition decoded_strings (k : ToolKind) (arguments : string)
  : list (string * string) :=
  match k with
  | get_weather =>
      let i := fst (Json.Unmarshal GetWeather.fields arguments
                      GetWeather.zero) in
      [ ("location", GetWeather.Location i) ]
  | bash =>
      let i := fst (Json.Unmarshal Bash.fields arguments Bash.zero) in
      [ ("command", Bash.Command i) ]
  | git =>
      let i := fst (Json.Unmarshal Git.fields arguments Git.zero) in
      [ ("command", Git.Command i); ("repo_path", Git.RepoPath i) ]
  | github_repository =>
      let i := fst (Json.Unmarshal GitHub.fields arguments GitHub.zero) in
      [ ("operation", GitHub.Operation i); ("owner", GitHub.Owner i);
        ("repo", GitHub.Repo i); ("description", GitHub.Description i);
        ("branch", GitHub.Branch_ i);
        ("source_branch", GitHub.SourceBranch i) ]
  end.

Definition omits (k : ToolKind) (f : string)
    (ms : list (string * Json.value)) : bool :=
  match k with
  | get_weather => Json.omits GetWeather.fields f ms
  | bash => Json.omits Bash.fields f ms
  | git => Json.omits Git.fields f ms
  | github_repository => Json.omits GitHub.fields f ms
  end.

Definition fits (k : ToolKind) (ms : list (string * Json.value)) : Prop :=
  match k with
  | get_weather => Json.fits GetWeather.fields ms
  | bash => Json.fits Bash.fields ms
  | git => Json.fits Git.fields ms
  | github_repository => Json.fits GitHub.fields ms
  end.

(** The [json] tags of the input structure, in the order of its fields. *)
Definition tags (k : ToolKind) : list string :=
  match k with
  | get_weather => map Json.name GetWeather.fields
  | bash => map Json.name Bash.fields
  | git => map Json.name Git.fields
  | github_repository => map Json.name GitHub.fields
  end.

Section Tools.

Context `{Collaborators}.

(** The instances the tools are built from. *)
Record Instances : Type := {
  the_bash : Bash.Bash;
  the_git : Git.Git;
  the_github : GitHub.GitHub;
  mustMarshal : GitHub.Result -> string
}.

Definition handler_of (i : Instances) (k : ToolKind)
  : CallToolParams -> Prog Return :=
  match k with
  | get_weather => GetWeather.handler
  | bash => Bash.handler (the_bash i)
  | git => Git.handler (the_git i)
  | github_repository =>
      GitHub.handleRepositoryOperation (mustMarshal i) (the_github i)
  end.

End Tools.

(** ** A scripted world

    Collaborators that answer from a script, as test doubles do: the
    tracer and the logger do nothing, every process gives the output and
    the error [proc] says, every remote call the answer [remote] says. *)

Module Scripted.

Definition collaborators : Collaborators := {|
  Logger := unit;
  CommandExecutor := unit;
  Client := unit;
  Span := unit;
  Branch := string;
  Protection := string;
  ErrorLogField := "error"
|}.

#[local] Existing Instance collaborators.

Definition Script : Type := forall X : Type, Remote X -> X.

Definition env (proc : Cmd -> string * option error) (remote : Script)
  : Env unit :=
  fun X c w =>
    match c in Call X return X * unit with
    | StartSpan _ => (tt, tt)
    | SetAttributes _ _ => (tt, tt)
    | RecordError _ _ => (tt, tt)
    | SpanEnd _ => (tt, tt)
    | Log _ _ _ _ _ => (tt, tt)
    | ExecuteCommand _ cmd => (proc cmd, tt)
    | CombinedOutput cmd => (proc cmd, tt)
    | GitHubCall _ r => (remote _ r, tt)
    end.

Definition sha : string := "6dcb09b5b57875f334f61aebed695e2e4193db5e".

(** Every remote call succeeds. *)
Definition remote_ok : Script :=
  fun X r =>
    match r in Remote X return X with
    | Repositories_Create _ repo => (Some repo, None)
    | Repositories_Delete _ _ => None
    | Repositories_Edit _ _ repo => (Some repo, None)
    | Repositories_CreateFork _ repo _ =>
        (Some {| Repository_Name := Some repo;
                 Repository_Description := None;
                 Repository_Private := Some false |}, None)
    | Repositories_ListBranches _ _ _ => (["main"; "develop"], None)
    | Git_GetRef _ _ ref =>
        (Some {| Ref := Some ref; Object := Some {| SHA := Some sha |} |},
         None)
    | Git_CreateRef _ _ ref => (Some ref, None)
    | Repositories_UpdateBranchProtection _ _ _ _ => (Some "protected", None)
    end.

(** The source branch is found and the new reference is refused. *)
Definition creation_fails : Script :=
  fun X r =>
    match r in Remote X return X with
    | Git_CreateRef _ _ _ =>
        (None, Some (errorString "422 Reference already exists"))
    | r' => remote_ok _ r'
    end.

(** The source branch is not found. *)
Definition lookup_fails : Script :=
  fun X r =>
    match r in Remote X return X with
    | Git_GetRef _ _ _ => (None, Some (errorString "404 Not Found"))
    | r' => remote_ok _ r'
    end.

(** The lookup answers with a reference that has no object. *)
Definition lookup_without_object : Script :=
  fun X r =>
    match r in Remote X return X with
    | Git_GetRef _ _ ref => (Some {| Ref := Some ref; Object := None |}, None)
    | r' => remote_ok _ r'
    end.

Definition newline : string := String (chr 10) "".

Definition echo_hi (cmd : Cmd) : string * option error :=
  ("hi" ++ newline, None).

Definition not_a_repository : string :=
  "fatal: not a git repository (or any of the parent directories): .git"
  ++ newline.

Definition exit_128 (cmd : Cmd) : string * option error :=
  (not_a_repository, Some (errorString "exit status 128")).

(** A stand-in for [mustMarshal]: a nil pointer gives [null]. *)
Definition marshal (r : GitHub.Result) : string :=
  match r with
  | GitHub.nilResult => "null"
  | GitHub.RepositoryResult None => "null"
  | GitHub.RepositoryResult (Some _) => "{}"
  | GitHub.StatusResult _ => Q "{'status':'deleted'}"
  | GitHub.BranchesResult _ => "[]"
  | GitHub.ReferenceResult None => "null"
  | GitHub.ReferenceResult (Some _) => "{}"
  | GitHub.ProtectionResult None => "null"
  | GitHub.ProtectionResult (Some _) => "{}"
  end.

Definition git_with (blocked : list string) : Git.Git :=
  Git.NewGit (tt : Logger)
    {| Git.DefaultRepoPath := "."; Git.BlockedCommands := blocked |}.

Definition tools : Instances := {|
  the_bash := {| Bash.logger := tt; Bash.cmdExecutor := tt |};
  the_git := git_with [];
  the_github := {| GitHub.client := tt; GitHub.logger := tt |};
  mustMarshal := marshal
|}.

Definition params (name arguments : string) : CallToolParams :=
  {| Name := name; Arguments := Q arguments |}.

Definition malformed : string := "{'location': ".
Definition mistyped : string := "{'location': 5, 'command': 5, 'operation': 5}".
Definition no_fields : string := "{}".
Definition echo : string := "{'command': 'echo hi'}".
Definition status : string :=
  "{'command': 'status', 'repo_path': '/tmp/nonexistent'}".
Definition status_only : string := "{'command': 'status'}".
Definition log_oneline : string :=
  "{'command': 'log', 'repo_path': '/srv/repo', 'args': ['--oneline', '-n', '5']}".
Definition rename_repo : string :=
  "{'operation': 'rename', 'owner': 'octocat', 'repo': 'hello'}".
Definition create_branch : string :=
  "{'operation': 'create_branch', 'owner': 'octocat', 'repo': 'hello', 'branch': 'feature', 'source_branch': 'main'}".
Definition list_branches : string :=
  "{'operation': 'list_branches', 'owner': 'octocat', 'repo': 'hello'}".
Definition protect_branch : string :=
  "{'operation': 'protect_branch', 'owner': 'octocat', 'repo': 'hello', 'branch': 'main', 'private': true, 'description': 'x'}".

(** The instances, inputs and values of the runs below. *)
Definition git_tool : Git.Git := git_with [].
Definition github_tool : GitHub.GitHub := the_github tools.

Definition rename_input : GitHub.input :=
  {| GitHub.Operation := "rename"; GitHub.Owner := "octocat";
     GitHub.Repo := "hello"; GitHub.Description := "";
     GitHub.Private := false; GitHub.Branch_ := "";
     GitHub.SourceBranch := "" |}.

Definition status_cmd : Cmd :=
  {| Path := "git"; Args := ["git"; "-C"; "/tmp/nonexistent"; "status"] |}.

Definition create_branch_input : GitHub.input :=
  {| GitHub.Operation := "create_branch"; GitHub.Owner := "octocat";
     GitHub.Repo := "hello"; GitHub.Description := "";
     GitHub.Private := false; GitHub.Branch_ := "feature";
     GitHub.SourceBranch := "main" |}.

Definition main_ref : Reference :=
  {| Ref := Some "refs/heads/main"; Object := Some {| SHA := Some sha |} |}.

Definition list_branches_input : GitHub.input :=
  {| GitHub.Operation := "list_branches"; GitHub.Owner := "octocat";
     GitHub.Repo := "hello"; GitHub.Description := "";
     GitHub.Private := false; GitHub.Branch_ := "";
     GitHub.SourceBranch := "" |}.

Definition echo_input : Bash.input :=
  {| Bash.Command := "echo hi"; Bash.Args := []; Bash.Args_spare := [] |}.

Definition log_input : Git.input :=
  {| Git.Command := "log"; Git.RepoPath := "/srv/repo";
     Git.Args := ["--oneline"; "-n"; "5"]; Git.Args_spare := [] |}.

Definition branches_listed : CallToolResult :=
  {| Content := [ {| Type_ := "json"; Text := "[]" |} ]; IsError := false |}.

Definition protect_branch_input : GitHub.input :=
  {| GitHub.Operation := "protect_branch"; GitHub.Owner := "octocat";
     GitHub.Repo := "hello"; GitHub.Description := "x";
     GitHub.Private := true; GitHub.Branch_ := "main";
     GitHub.SourceBranch := "" |}.

(** Every remote call fails. *)
Definition remote_down : Script :=
  fun X r =>
    match r in Remote X return X with
    | Repositories_Create _ _ => (None, Some (errorString "503 unavailable"))
    | Repositories_Delete _ _ => Some (errorString "503 unavailable")
    | Repositories_Edit _ _ _ => (None, Some (errorString "503 unavailable"))
    | Repositories_CreateFork _ _ _ =>
        (None, Some (errorString "503 unavailable"))
    | Repositories_ListBranches _ _ _ =>
        ([], Some (errorString "503 unavailable"))
    | Git_GetRef _ _ _ => (None, Some (errorString "503 unavailable"))
    | Git_CreateRef _ _ _ => (None, Some (errorString "503 unavailable"))
    | Repositories_UpdateBranchProtection _ _ _ _ =>
        (None, Some (errorString "503 unavailable"))
    end.

Definition create_repo : string :=
  "{'operation': 'create', 'owner': 'octocat', 'repo': 'hello', 'description': 'first', 'private': true}".

Definition create_repo_input : GitHub.input :=
  {| GitHub.Operation := "create"; GitHub.Owner := "octocat";
     GitHub.Repo := "hello"; GitHub.Description := "first";
     GitHub.Private := true; GitHub.Branch_ := "";
     GitHub.SourceBranch := "" |}.

Definition delete_repo : string :=
  "{'operation': 'delete', 'owner': 'octocat', 'repo': 'hello'}".

Definition delete_repo_input : GitHub.input :=
  {| GitHub.Operation := "delete"; GitHub.Owner := "octocat";
     GitHub.Repo := "hello"; GitHub.Description := "";
     GitHub.Private := false; GitHub.Branch_ := "";
     GitHub.SourceBranch := "" |}.

Definition status_only_input : Git.input :=
  {| Git.Command := "status"; Git.RepoPath := ""; Git.Args := [];
     Git.Args_spare := [] |}.

Definition status_input : Git.input :=
  {| Git.Command := "status"; Git.RepoPath := "/tmp/nonexistent";
     Git.Args := []; Git.Args_spare := [] |}.

Definition echo_cmd : Cmd :=
  {| Path := "bash"; Args := ["bash"; "-c"; "echo hi"] |}.

Definition bare_ref : Reference :=
  {| Ref := Some "refs/heads/main"; Object := None |}.

End Scripted.

(** The operations other than create_branch. *)
Definition single_call_operations : list string :=
  [ "create"; "delete"; "update"; "fork"; "list_branches";
    "protect_branch" ].

(** The request the handler sends for protect_branch. *)
Definition protection_sent : ProtectionRequest :=
  {| RequiredStatusChecks_ := Some {| Strict := true; Contexts := [] |};
     RequiredPullRequestReviews :=
       Some {| DismissStaleReviews := false;
               RequireCodeOwnerReviews := false;
               RequiredApprovingReviewCount := 1 |};
     EnforceAdmins := false |}.

(** * Properties *)

Section Properties.

Context `{Collaborators} {W : Type} (env : Env W).

Ltac decoded Hd :=
  match type of Hd with
  | snd ?u = _ => destruct u as [? ?] eqn:?; simpl in Hd; subst
  end.

(** ** C1 *)

(** C1.  Whatever the tool, a payload that does not decode into its input
    structure (malformed JSON, or a value of the wrong type) makes the
    handler return a non-nil error, the decoding error itself for
    get_weather and the decoding error wrapped for the three others,
    together with an envelope whose content is empty. *)
Theorem decode_failure_is_transport_error :
  forall (i : Instances) (k : ToolKind) (params : CallToolParams)
         (err : error) (w : W),
    decode_error k (Arguments params) = Some err ->
    exists r : CallToolResult,
      outcome (run env (handler_of i k params) w)
      = Returned (r, Some (decode_failure k err))
      /\ Content r = [].
Proof.
  intros i k params err w Hd.
  exists emptyResult. split; [| reflexivity].
  destruct k; simpl in Hd; decoded Hd; simpl;
    unfold GetWeather.handler, Bash.handler, Git.handler,
      GitHub.handleRepositoryOperation; simpl;
    match goal with
    | E : Json.Unmarshal _ _ _ = _ |- _ => rewrite E
    end; reflexivity.
Qed.

(** ** C2 *)

Lemma not_listed :
  forall op : string,
    ~ In op GitHub.operations ->
    String.eqb op "create" = false /\ String.eqb op "delete" = false
    /\ String.eqb op "update" = false /\ String.eqb op "fork" = false
    /\ String.eqb op "list_branches" = false
    /\ String.eqb op "create_branch" = false
    /\ String.eqb op "protect_branch" = false.
Proof.
  intros op Hn.
  repeat split; apply String.eqb_neq; intros ->; apply Hn; simpl; tauto.
Qed.

(** C2.  When the decoded operation is none of create, delete, update,
    fork, list_branches, create_branch and protect_branch, the repository
    handler returns the envelope of a handled failure, [is_error=true]
    with the text "unsupported operation: <value>", and a nil error; no
    remote call is made. *)
Theorem unsupported_operation_is_domain_failure :
  forall (mm : GitHub.Result -> string) (g : GitHub.GitHub)
         (params : CallToolParams) (input : GitHub.input) (w : W),
    Json.Unmarshal GitHub.fields (Arguments params) GitHub.zero
    = (input, None) ->
    ~ In (GitHub.Operation input) GitHub.operations ->
    let r := run env (GitHub.handleRepositoryOperation mm g params) w in
    outcome r
    = Returned
        ({| Content :=
              [ {| Type_ := "text";
                   Text := "unsupported operation: "
                           ++ GitHub.Operation input |} ];
            IsError := true |}, None)
    /\ remote_calls (trace r) = [].
Proof.
  intros mm g params input w Hd Hn.
  apply not_listed in Hn.
  destruct Hn as (E1 & E2 & E3 & E4 & E5 & E6 & E7).
  unfold GitHub.handleRepositoryOperation; simpl.
  rewrite Hd. unfold GitHub.switch.
  rewrite E1, E2, E3, E4, E5, E6, E7. simpl. split; reflexivity.
Qed.

(** ** C7 *)

(** C7.  A payload that decodes makes the bash handler start exactly one
    process, with the argument vector bash, -c, the command, then the
    arguments given, in their order; and the git handler exactly one, with
    git, -C, the repository path, the command, then the arguments given. *)
Theorem argument_vector_of_the_process :
  forall (params : CallToolParams) (w : W),
    (forall (b : Bash.Bash) (input : Bash.input),
        Json.Unmarshal Bash.fields (Arguments params) Bash.zero
        = (input, None) ->
        map (fun p => Args (fst p))
            (processes (trace (run env (Bash.handler b params) w)))
        = [ ("bash" :: "-c" :: Bash.Command input :: Bash.Args input)%list ])
    /\
    (forall (g : Git.Git) (input : Git.input),
        Json.Unmarshal Git.fields (Arguments params) Git.zero
        = (input, None) ->
        map (fun p => Args (fst p))
            (processes (trace (run env (Git.handler g params) w)))
        = [ ("git" :: "-C" :: Git.RepoPath input :: Git.Command input
               :: Git.Args input)%list ]).
Proof.
  intros params w. split.
  - intros b input Hd. unfold Bash.handler; simpl. rewrite Hd; simpl.
    destruct (fst (env _ _ _)) as [output [err|]]; reflexivity.
  - intros g input Hd. unfold Git.handler; simpl. rewrite Hd; simpl.
    destruct (fst (env _ (CombinedOutput _) _)) as [output [err|]];
      reflexivity.
Qed.

(** ** C8 *)

(** C8.  The git handler never reads the configuration: two wrappers that
    differ in [BlockedCommands] alone run alike on every payload and in
    every world, and a command that is on the list is started like any
    other. *)
Theorem blocked_commands_are_not_enforced :
  forall (logger : Logger) (path : string) (blocked blocked' : list string)
         (params : CallToolParams) (w : W),
    run env
      (Git.handler
         (Git.NewGit logger {| Git.DefaultRepoPath := path;
                               Git.BlockedCommands := blocked |}) params) w
    = run env
        (Git.handler
           (Git.NewGit logger {| Git.DefaultRepoPath := path;
                                 Git.BlockedCommands := blocked' |}) params) w
    /\
    forall input : Git.input,
      Json.Unmarshal Git.fields (Arguments params) Git.zero
      = (input, None) ->
      In (Git.Command input) blocked ->
      map (fun p => Args (fst p))
          (processes
             (trace
                (run env
                   (Git.handler
                      (Git.NewGit logger
                         {| Git.DefaultRepoPath := path;
                            Git.BlockedCommands := blocked |}) params) w)))
      = [ ("git" :: "-C" :: Git.RepoPath input :: Git.Command input
             :: Git.Args input)%list ].
Proof.
  intros logger path blocked blocked' params w. split.
  - reflexivity.
  - intros input Hd _. unfold Git.handler; simpl. rewrite Hd; simpl.
    destruct (fst (env _ (CombinedOutput _) _)) as [output [err|]];
      reflexivity.
Qed.

(** ** C10 *)

(** C10.  For protect_branch the handler asks the remote for one branch
    protection, for the owner, repository and branch of the input; the
    request is always the same, with strict status checks and one
    approving review required, whatever the other fields of the input. *)
Theorem protect_branch_request_is_fixed :
  forall (mm : GitHub.Result -> string) (g : GitHub.GitHub)
         (params : CallToolParams) (input : GitHub.input) (w : W),
    Json.Unmarshal GitHub.fields (Arguments params) GitHub.zero
    = (input, None) ->
    GitHub.Operation input = "protect_branch" ->
    pick protection_request
      (trace (run env (GitHub.handleRepositoryOperation mm g params) w))
    = [ (GitHub.Owner input, GitHub.Repo input, GitHub.Branch_ input,
         protection_sent) ]
    /\ option_map Strict (RequiredStatusChecks_ protection_sent) = Some true
    /\ option_map RequiredApprovingReviewCount
         (RequiredPullRequestReviews protection_sent) = Some 1%Z.
Proof.
  intros mm g params input w Hd Hop.
  split; [| split; reflexivity].
  unfold GitHub.handleRepositoryOperation; simpl.
  rewrite Hd. unfold GitHub.switch. rewrite Hop; simpl.
  destruct (fst (env _ (GitHubCall _ _) _)) as [p [err|]]; reflexivity.
Qed.

(** ** C3 *)

(** C3, as amended.  When the process of a bash or git invocation ends
    with an error, the handler returns a nil error and the envelope
    [returnErrorOutput] makes of that error: [is_error=true] and one text
    payload, the message of the error.  The envelope is the same whatever
    output was captured. *)
Theorem process_failure_reports_the_error_message :
  forall (params : CallToolParams) (w : W) (cmd : Cmd) (output : string)
         (err : error),
    (forall b : Bash.Bash,
        processes (trace (run env (Bash.handler b params) w))
        = [ (cmd, (output, Some err)) ] ->
        outcome (run env (Bash.handler b params) w)
        = Returned
            ({| Content := [ {| Type_ := "text"; Text := Error err |} ];
                IsError := true |}, None))
    /\
    (forall g : Git.Git,
        processes (trace (run env (Git.handler g params) w))
        = [ (cmd, (output, Some err)) ] ->
        outcome (run env (Git.handler g params) w)
        = Returned
            ({| Content := [ {| Type_ := "text"; Text := Error err |} ];
                IsError := true |}, None)).
Proof.
  intros params w cmd output err. split.
  - intros b. unfold Bash.handler; simpl.
    destruct (Json.Unmarshal Bash.fields (Arguments params) Bash.zero)
      as [input [e|]]; simpl; [discriminate |].
    destruct (fst (env _ (ExecuteCommand _ _) _)) as [o [e|]]; simpl;
      intros Hp; inversion Hp; subst; reflexivity.
  - intros g. unfold Git.handler; simpl.
    destruct (Json.Unmarshal Git.fields (Arguments params) Git.zero)
      as [input [e|]]; simpl; [discriminate |].
    destruct (fst (env _ (CombinedOutput _) _)) as [o [e|]]; simpl;
      intros Hp; inversion Hp; subst; reflexivity.
Qed.

(** ** C4 and C5 *)

Ltac answered :=
  match goal with
  | |- context [fst (env ?X (GitHubCall ?c ?r) ?w)] =>
      destruct (fst (env X (GitHubCall c r) w)); simpl
  end.

(** C4, as amended.  In a create_branch invocation whose lookup of the
    source branch returns a nil error and a reference that carries its
    object, the handler creates the reference once and returns a success,
    [is_error=false] with a nil error, made of whatever the creation
    returned beside its error: the error of the creation, nil or not, has
    no part in the result.  ([mustMarshal] is taken as a function that
    returns its text.) *)
Theorem create_branch_discards_creation_error :
  forall (mm : GitHub.Result -> string) (g : GitHub.GitHub)
         (params : CallToolParams) (input : GitHub.input) (w : W)
         (ref : Reference) (object : GitObject),
    Json.Unmarshal GitHub.fields (Arguments params) GitHub.zero
    = (input, None) ->
    GitHub.Operation input = "create_branch" ->
    let r := run env (GitHub.handleRepositoryOperation mm g params) w in
    pick GetRef_answer (trace r) = [ (Some ref, None) ] ->
    Object ref = Some object ->
    length (pick CreateRef_answer (trace r)) = 1
    /\ forall (created : option Reference) (e : option error),
         In (created, e) (pick CreateRef_answer (trace r)) ->
         outcome r
         = Returned
             ({| Content :=
                   [ {| Type_ := "json";
                        Text := mm (GitHub.ReferenceResult created) |} ];
                 IsError := false |}, None).
Proof.
  intros mm g params input w ref object Hd Hop.
  unfold GitHub.handleRepositoryOperation; simpl.
  rewrite Hd. unfold GitHub.switch. rewrite Hop; simpl.
  destruct (fst (env _ (GitHubCall _ (Git_GetRef _ _ _)) _))
    as [[ref'|] [err|]]; simpl; intros Hg Ho; try discriminate.
  injection Hg as ->. rewrite Ho; simpl.
  destruct (fst (env _ (GitHubCall _ (Git_CreateRef _ _ _)) _))
    as [created' e']; simpl.
  split; [reflexivity |].
  intros created e [Hin | []]. injection Hin as -> ->. reflexivity.
Qed.

(** C5.  In a create_branch invocation whose lookup of the source branch
    fails, the handler returns the error of the lookup as its error, with
    the zero envelope, and the creation is never asked for: the lookup is
    the one remote call.  For each of the six other operations one remote
    call is made. *)
Theorem create_branch_stops_at_failed_lookup :
  forall (mm : GitHub.Result -> string) (g : GitHub.GitHub)
         (params : CallToolParams) (input : GitHub.input) (w : W),
    Json.Unmarshal GitHub.fields (Arguments params) GitHub.zero
    = (input, None) ->
    let r := run env (GitHub.handleRepositoryOperation mm g params) w in
    (GitHub.Operation input = "create_branch" ->
     forall (ref : option Reference) (err : error),
       pick GetRef_answer (trace r) = [ (ref, Some err) ] ->
       outcome r = Returned (emptyResult, Some err)
       /\ pick CreateRef_answer (trace r) = []
       /\ length (remote_calls (trace r)) = 1)
    /\
    (In (GitHub.Operation input) single_call_operations ->
     length (remote_calls (trace r)) = 1).
Proof.
  intros mm g params input w Hd.
  unfold GitHub.handleRepositoryOperation; simpl.
  rewrite Hd. unfold GitHub.switch. split.
  - intros Hop ref err. rewrite Hop; simpl.
    destruct (fst (env _ (GitHubCall _ (Git_GetRef _ _ _)) _))
      as [[ref'|] [err'|]]; simpl;
      try destruct (Object ref'); simpl;
      intros Hg; try discriminate;
      inversion Hg; subst; repeat split; reflexivity.
  - intros Hin. simpl in Hin.
    destruct Hin as [<- | [<- | [<- | [<- | [<- | [<- | []]]]]]]; simpl;
      answered; repeat match goal with
                       | o : option error |- _ => destruct o; simpl
                       | p : _ * _ |- _ => destruct p; simpl
                       end; reflexivity.
Qed.

(** ** C9 *)

(** C9.  Whatever the tool, a return with a nil error and [is_error=false]
    carries exactly one content element, of type text for get_weather,
    bash and git and of type json for the repository tool. *)
Theorem success_carries_one_content :
  forall (i : Instances) (k : ToolKind) (params : CallToolParams) (w : W)
         (r : CallToolResult),
    outcome (run env (handler_of i k params) w) = Returned (r, None) ->
    IsError r = false ->
    exists text : string,
      Content r = [ {| Type_ := content_type k; Text := text |} ].
Proof.
  intros i k params w r.
  destruct k; simpl.
  - unfold GetWeather.handler; simpl.
    destruct (Json.Unmarshal _ _ _) as [input [e|]]; simpl;
      intros Hr; inversion Hr; subst; intros _; eexists; reflexivity.
  - unfold Bash.handler; simpl.
    destruct (Json.Unmarshal _ _ _) as [input [e|]]; simpl;
      [discriminate |].
    destruct (fst (env _ (ExecuteCommand _ _) _)) as [o [e|]]; simpl;
      intros Hr; inversion Hr; subst; simpl; intros Hf;
      try discriminate; eexists; reflexivity.
  - unfold Git.handler; simpl.
    destruct (Json.Unmarshal _ _ _) as [input [e|]]; simpl;
      [discriminate |].
    destruct (fst (env _ (CombinedOutput _) _)) as [o [e|]]; simpl;
      intros Hr; inversion Hr; subst; simpl; intros Hf;
      try discriminate; eexists; reflexivity.
  - unfold GitHub.handleRepositoryOperation; simpl.
    destruct (Json.Unmarshal _ _ _) as [input [e|]]; simpl;
      [discriminate |].
    unfold GitHub.switch.
    repeat match goal with
           | |- context [String.eqb ?a ?b] => destruct (String.eqb a b)
           end; simpl;
      repeat (answered;
              repeat match goal with
                     | o : option _ |- _ => destruct o; simpl
                     | p : _ * _ |- _ => destruct p; simpl
                     | x : Reference |- _ => destruct x; simpl
                     end);
      intros Hr; inversion Hr; subst; simpl; intros Hf;
      try discriminate; eexists; reflexivity.
Qed.

(** ** C6 *)

Lemma find_field_In {T : Type} (fields : list (Json.Field T))
    (key : string) (fld : Json.Field T) :
  Json.find_field fields key = Some fld -> In fld fields.
Proof.
  unfold Json.find_field.
  destruct (find _ fields) eqn:E.
  - intros [= <-]. apply find_some in E. tauto.
  - intros E'. apply find_some in E'. tauto.
Qed.

(** The members that fit leave the saved error as it is. *)
Lemma decode_members_fits {T : Type} {fields : list (Json.Field T)}
    {ms : list (string * Json.value)} :
  Json.fits fields ms ->
  forall (t : T) (saved : option error),
    snd (Json.decode_members fields ms t saved) = saved.
Proof.
  induction ms as [| [key v] ms IH]; intros Hf t saved.
  - reflexivity.
  - assert (Hms : Json.fits fields ms).
    { intros key' v' fld' Hin. apply (Hf key' v' fld'). now right. }
    simpl. destruct (Json.find_field fields key) as [fld |] eqn:E.
    + specialize (Hf key v fld (or_introl eq_refl) E t).
      destruct (Json.assign fld v t) as [t' e]. simpl in Hf. subst e.
      rewrite IH by assumption. now destruct saved.
    + now apply IH.
Qed.

(** What no field but [f] writes is unchanged when [f] is omitted. *)
Lemma decode_members_frame {T A : Type} (proj : T -> A)
    (fields : list (Json.Field T)) (f : string) :
  (forall (fld : Json.Field T) (v : Json.value) (t : T),
      In fld fields -> Json.name fld <> f ->
      proj (fst (Json.assign fld v t)) = proj t) ->
  forall ms : list (string * Json.value),
    Json.omits fields f ms = true ->
    forall (t : T) (saved : option error),
      proj (fst (Json.decode_members fields ms t saved)) = proj t.
Proof.
  intros Hother ms.
  induction ms as [| [key v] ms IH]; intros Ho t saved.
  - reflexivity.
  - simpl in Ho. apply andb_true_iff in Ho. destruct Ho as [Hk Ho].
    simpl. unfold Json.selects in Hk.
    destruct (Json.find_field fields key) as [fld |] eqn:E.
    + apply negb_true_iff, String.eqb_neq in Hk.
      pose proof (Hother fld v t (find_field_In _ _ _ E) Hk) as Hp.
      destruct (Json.assign fld v t) as [t' e]. simpl in Hp.
      rewrite IH by assumption. exact Hp.
    + now apply IH.
Qed.

Ltac other_fields :=
  let fld := fresh "fld" in
  let v := fresh "v" in
  let Hin := fresh "Hin" in
  let Hne := fresh "Hne" in
  intros fld v ? Hin Hne; simpl in Hin;
  repeat (destruct Hin as [<- | Hin]);
  try contradiction; simpl in Hne; try congruence;
  simpl; unfold GitHub.set_string; simpl;
  destruct v; simpl;
  repeat match goal with
         | |- context [let (_, _) := ?x in _] => destruct x
         end; reflexivity.

(** C6, as amended.  A payload that is a JSON object and omits a field the
    schema requires does not fail the decode step when the members it has
    fit their fields: [json.Unmarshal] returns nil, the omitted field is
    left at its zero value, the empty string, and the handler goes on with
    it and returns a nil error. *)
Theorem omitted_required_field_is_zero :
  forall (i : Instances) (k : ToolKind) (params : CallToolParams)
         (ms : list (string * Json.value)) (f : string) (w : W),
    Json.parse (Arguments params) = inr (Json.Object ms) ->
    In f (required_fields (schema_of k)) ->
    omits k f ms = true ->
    fits k ms ->
    decode_error k (Arguments params) = None
    /\ In (f, "") (decoded_strings k (Arguments params))
    /\ exists r : CallToolResult,
         outcome (run env (handler_of i k params) w) = Returned (r, None).
Proof.
  intros i k params ms f w Hp Hreq Ho Hf.
  destruct k; vm_compute in Hreq; simpl in Ho, Hf;
    unfold decode_error, decoded_strings, handler_of.
  - destruct Hreq as [<- | []].
    pose proof (decode_members_fits Hf GetWeather.zero None) as He.
    pose proof (decode_members_frame GetWeather.Location
                  GetWeather.fields "location" ltac:(other_fields)
                  ms Ho GetWeather.zero None) as Hz.
    unfold GetWeather.handler, Json.Unmarshal. rewrite Hp; simpl.
    destruct (Json.decode_members _ ms _ _) as [input e]. simpl in *.
    subst e. rewrite Hz. repeat split; [now left |].
    eexists; reflexivity.
  - destruct Hreq as [<- | []].
    pose proof (decode_members_fits Hf Bash.zero None) as He.
    pose proof (decode_members_frame Bash.Command
                  Bash.fields "command" ltac:(other_fields)
                  ms Ho Bash.zero None) as Hz.
    unfold Bash.handler, Json.Unmarshal. rewrite Hp; simpl.
    destruct (Json.decode_members _ ms _ _) as [input e]. simpl in *.
    subst e. rewrite Hz. repeat split; [now left |]. simpl.
    destruct (fst (env _ (ExecuteCommand _ _) _)) as [o [e|]]; simpl;
      eexists; reflexivity.
  - pose proof (decode_members_fits Hf Git.zero None) as He.
    assert (Hrun : forall input,
               Json.decode_members Git.fields ms Git.zero None
               = (input, None) ->
               exists r,
                 outcome (run env (Git.handler (the_git i) params) w)
                 = Returned (r, None)).
    { intros input E. unfold Git.handler, Json.Unmarshal.
      rewrite Hp; simpl. rewrite E; simpl.
      destruct (fst (env _ (CombinedOutput _) _)) as [o [e|]]; simpl;
        eexists; reflexivity. }
    unfold Json.Unmarshal. rewrite Hp; simpl.
    destruct Hreq as [<- | [<- | []]].
    + pose proof (decode_members_frame Git.Command
                    Git.fields "command" ltac:(other_fields)
                    ms Ho Git.zero None) as Hz.
      destruct (Json.decode_members _ ms _ _) as [input e]. simpl in *.
      subst e. rewrite Hz. repeat split; [now left | exact (Hrun input eq_refl)].
    + pose proof (decode_members_frame Git.RepoPath
                    Git.fields "repo_path" ltac:(other_fields)
                    ms Ho Git.zero None) as Hz.
      destruct (Json.decode_members _ ms _ _) as [input e]. simpl in *.
      subst e. rewrite Hz.
      repeat split; [right; now left | exact (Hrun input eq_refl)].
  - destruct Hreq as [<- | []].
    pose proof (decode_members_fits Hf GitHub.zero None) as He.
    pose proof (decode_members_frame GitHub.Operation
                  GitHub.fields "operation" ltac:(other_fields)
                  ms Ho GitHub.zero None) as Hz.
    unfold GitHub.handleRepositoryOperation, Json.Unmarshal.
    rewrite Hp; simpl.
    destruct (Json.decode_members _ ms _ _) as [input e]. simpl in *.
    subst e. rewrite Hz. repeat split; [now left |].
    unfold GitHub.switch. rewrite Hz; simpl. eexists; reflexivity.
Qed.

End Properties.

(** * The handlers beyond the claims *)

Section Behaviour.

Context `{Collaborators} {W : Type} (env : Env W).

Ltac remote_answer :=
  match goal with
  | |- context [fst (env ?X (GitHubCall ?c ?r) ?w)] =>
      destruct (fst (env X (GitHubCall c r) w)); simpl
  end.

Ltac split_answers :=
  repeat match goal with
         | o : option _ |- _ => destruct o; simpl
         | p : _ * _ |- _ => destruct p; simpl
         | x : Reference |- _ => destruct x; simpl
         end.

Ltac every_operation :=
  unfold GitHub.switch;
  repeat match goal with
         | |- context [String.eqb ?a ?b] => destruct (String.eqb a b)
         end; simpl;
  repeat (remote_answer; split_answers).

(** ** Tracing *)

(** X1.  The handlers of get_weather, git and the repository tool open
    one span, named after the tool, as their first call and close that
    span as their last call, on every way out: a decoding failure, a
    handled failure, the error of a lookup, a success, a panic.  No other
    span is opened or closed. *)
Theorem span_covers_the_whole_call :
  forall (i : Instances) (k : ToolKind) (params : CallToolParams) (w : W),
    k <> bash ->
    let t := calls (trace (run env (handler_of i k params) w)) in
    let name := Name params ++ ".Handler" in
    let sp := fst (env Span (StartSpan name) w) in
    hd_error t = Some (any (StartSpan name))
    /\ last_error t = Some (any (SpanEnd sp))
    /\ filter is_span_boundary t = [ any (StartSpan name); any (SpanEnd sp) ].
Proof.
  intros i k params w Hk.
  destruct k; try (exfalso; apply Hk; reflexivity); simpl.
  - unfold GetWeather.handler; simpl.
    destruct (Json.Unmarshal _ _ _) as [input [e|]]; simpl;
      repeat split; reflexivity.
  - unfold Git.handler; simpl.
    destruct (Json.Unmarshal _ _ _) as [input [e|]]; simpl;
      [repeat split; reflexivity |].
    destruct (fst (env _ (CombinedOutput _) _)) as [o [e|]]; simpl;
      repeat split; reflexivity.
  - unfold GitHub.handleRepositoryOperation; simpl.
    destruct (Json.Unmarshal _ _ _) as [input [e|]]; simpl;
      [repeat split; reflexivity |].
    every_operation; repeat split; reflexivity.
Qed.

(** X2.  The bash handler never calls the tracer, and the one process it
    starts, when the payload decodes, is run by the executor the wrapper
    was built with.  The git handler runs its process through [os/exec]
    itself: no executor is involved.  Neither starts a process when the
    payload does not decode. *)
Theorem who_runs_the_process :
  forall (params : CallToolParams) (w : W),
    (forall b : Bash.Bash,
        let t := trace (run env (Bash.handler b params) w) in
        filter is_tracer (calls t) = []
        /\ pick runner t
           = match decode_error bash (Arguments params) with
             | None => [ Some (Bash.cmdExecutor b) ]
             | Some _ => []
             end)
    /\
    (forall g : Git.Git,
        pick runner (trace (run env (Git.handler g params) w))
        = match decode_error git (Arguments params) with
          | None => [ None ]
          | Some _ => []
          end).
Proof.
  intros params w. split.
  - intros b. unfold Bash.handler, decode_error; simpl.
    destruct (Json.Unmarshal _ _ _) as [input [e|]]; simpl;
      [split; reflexivity |].
    destruct (fst (env _ (ExecuteCommand _ _) _)) as [o [e|]]; simpl;
      split; reflexivity.
  - intros g. unfold Git.handler, decode_error; simpl.
    destruct (Json.Unmarshal _ _ _) as [input [e|]]; simpl;
      [reflexivity |].
    destruct (fst (env _ (CombinedOutput _) _)) as [o [e|]]; simpl;
      reflexivity.
Qed.

(** X3.  What a handler tells its collaborators when the payload does not
    decode.  get_weather sets the attributes of its span and nothing more:
    the deferred closure reads an [err] that is never assigned, so the
    error is not recorded.  bash logs the payload, then the error.  git
    logs the payload, logs the error and records it on the span, unwrapped.
    The repository tool logs the payload and neither logs nor records the
    error. *)
Theorem what_a_decoding_failure_leaves_behind :
  forall (i : Instances) (params : CallToolParams) (w : W) (k : ToolKind)
         (err : error),
    decode_error k (Arguments params) = Some err ->
    let name := Name params ++ ".Handler" in
    let sp := fst (env Span (StartSpan name) w) in
    calls (trace (run env (handler_of i k params) w))
    = match k with
      | get_weather =>
          [ any (StartSpan name);
            any (SetAttributes sp [ ("tool_name", Name params);
                                    ("tool_argument", Arguments params) ]);
            any (SpanEnd sp) ]
      | bash =>
          [ any (Log (Bash.logger (the_bash i))
                   [ ("tool", VString Bash.BashToolName) ] LevelInfo
                   "Received input"
                   [ VString "input"; VString (Arguments params) ]);
            any (Log (Bash.logger (the_bash i))
                   [ ("tool", VString Bash.BashToolName) ] LevelError
                   "Failed to parse input" [ VString "error"; VError err ]) ]
      | git =>
          [ any (StartSpan name);
            any (SetAttributes sp [ ("tool_name", Name params);
                                    ("tool_argument", Arguments params) ]);
            any (Log (Git.logger (the_git i))
                   [ ("tool_name", VString (Name params));
                     ("arguments", VString (Arguments params)) ]
                   LevelInfo "Received input" []);
            any (Log (Git.logger (the_git i))
                   [ (ErrorLogField, VError err);
                     ("tool", VString Git.GitToolName);
                     ("raw_input", VString (Arguments params)) ]
                   LevelError "Failed to unmarshal input parameters" []);
            any (RecordError sp err);
            any (SpanEnd sp) ]
      | github_repository =>
          [ any (StartSpan name);
            any (Log (GitHub.logger (the_github i))
                   [ ("tool", VString (Name params));
                     ("operation", VString (Arguments params)) ]
                   LevelInfo "handling repository operation" []);
            any (SpanEnd sp) ]
      end.
Proof.
  intros i params w k err Hd.
  destruct k; simpl in Hd;
    match type of Hd with
    | snd ?u = _ => destruct u as [input e] eqn:E; simpl in Hd; subst e
    end; simpl;
    unfold GetWeather.handler, Bash.handler, Git.handler,
      GitHub.handleRepositoryOperation; simpl;
    rewrite E; reflexivity.
Qed.

(** X4.  get_weather and the repository tool never record an error on
    their span, whatever happens.  git records exactly the error that
    ends the call: the decoding error, or the error of the process; on a
    success it records none. *)
Theorem errors_recorded_on_the_span :
  forall (i : Instances) (params : CallToolParams) (w : W),
    pick recorded_error (trace (run env (GetWeather.handler params) w)) = []
    /\ pick recorded_error
         (trace (run env (handler_of i github_repository params) w)) = []
    /\ (forall g : Git.Git,
           let r := run env (Git.handler g params) w in
           pick recorded_error (trace r)
           = match decode_error git (Arguments params) with
             | Some err => [ err ]
             | None =>
                 flat_map (fun p => match snd (snd p) with
                                    | Some err => [ err ]
                                    | None => []
                                    end) (processes (trace r))
             end).
Proof.
  intros i params w. repeat split.
  - unfold GetWeather.handler; simpl.
    destruct (Json.Unmarshal _ _ _) as [input [e|]]; reflexivity.
  - simpl. unfold GitHub.handleRepositoryOperation; simpl.
    destruct (Json.Unmarshal _ _ _) as [input [e|]]; simpl;
      [reflexivity |].
    every_operation; reflexivity.
  - intros g. unfold Git.handler, decode_error; simpl.
    destruct (Json.Unmarshal _ _ _) as [input [e|]]; simpl;
      [reflexivity |].
    destruct (fst (env _ (CombinedOutput _) _)) as [o [e|]]; simpl;
      reflexivity.
Qed.

(** ** Processes *)

(** X5.  When the process ends without error, the bash and git handlers
    return a nil error and an envelope with [is_error=false] whose one
    text is the captured output, byte for byte. *)
Theorem output_is_returned_verbatim :
  forall (params : CallToolParams) (w : W) (cmd : Cmd) (output : string),
    (forall b : Bash.Bash,
        processes (trace (run env (Bash.handler b params) w))
        = [ (cmd, (output, None)) ] ->
        outcome (run env (Bash.handler b params) w)
        = Returned
            ({| Content := [ {| Type_ := "text"; Text := output |} ];
                IsError := false |}, None))
    /\
    (forall g : Git.Git,
        processes (trace (run env (Git.handler g params) w))
        = [ (cmd, (output, None)) ] ->
        outcome (run env (Git.handler g params) w)
        = Returned
            ({| Content := [ {| Type_ := "text"; Text := output |} ];
                IsError := false |}, None)).
Proof.
  intros params w cmd output. split.
  - intros b. unfold Bash.handler; simpl.
    destruct (Json.Unmarshal _ _ _) as [input [e|]]; simpl;
      [discriminate |].
    destruct (fst (env _ (ExecuteCommand _ _) _)) as [o [e|]]; simpl;
      intros Hp; inversion Hp; subst; reflexivity.
  - intros g. unfold Git.handler; simpl.
    destruct (Json.Unmarshal _ _ _) as [input [e|]]; simpl;
      [discriminate |].
    destruct (fst (env _ (CombinedOutput _) _)) as [o [e|]]; simpl;
      intros Hp; inversion Hp; subst; reflexivity.
Qed.

(** X6.  What a handler tells its collaborators when the process ends
    with an error.  git writes the captured output to the error log,
    beside the error and the command, and records the error on the span.
    bash logs the error alone: the captured output reaches no
    collaborator. *)
Theorem what_a_failed_process_leaves_behind :
  forall (params : CallToolParams) (w : W) (cmd : Cmd) (output : string)
         (err : error),
    (forall (b : Bash.Bash) (input : Bash.input),
        Json.Unmarshal Bash.fields (Arguments params) Bash.zero
        = (input, None) ->
        processes (trace (run env (Bash.handler b params) w))
        = [ (cmd, (output, Some err)) ] ->
        calls (trace (run env (Bash.handler b params) w))
        = [ any (Log (Bash.logger b)
                   [ ("tool", VString Bash.BashToolName) ] LevelInfo
                   "Received input"
                   [ VString "input"; VString (Arguments params) ]);
            any (Log (Bash.logger b) [] LevelInfo "Executing bash command"
                   [ VString "command"; VString (Bash.Command input);
                     VString "args"; VStrings (Bash.Args input) ]);
            any (ExecuteCommand (Bash.cmdExecutor b) cmd);
            any (Log (Bash.logger b)
                   [ ("tool", VString Bash.BashToolName) ] LevelError
                   "Failed to execute bash command"
                   [ VString "error"; VError err ]) ])
    /\
    (forall (g : Git.Git) (input : Git.input),
        Json.Unmarshal Git.fields (Arguments params) Git.zero
        = (input, None) ->
        processes (trace (run env (Git.handler g params) w))
        = [ (cmd, (output, Some err)) ] ->
        let name := Name params ++ ".Handler" in
        let sp := fst (env Span (StartSpan name) w) in
        let executing :=
          any (Log (Git.logger g)
                 [ ("command", VString (Git.Command input));
                   ("repo_path", VString (Git.RepoPath input));
                   ("args",
                    VStrings ([ "-C"; Git.RepoPath input; Git.Command input ]
                              ++ Git.Args input)%list) ]
                 LevelDebug "Executing git command" []) in
        calls (trace (run env (Git.handler g params) w))
        = [ any (StartSpan name);
            any (SetAttributes sp [ ("tool_name", Name params);
                                    ("tool_argument", Arguments params) ]);
            any (Log (Git.logger g)
                   [ ("tool_name", VString (Name params));
                     ("arguments", VString (Arguments params)) ]
                   LevelInfo "Received input" []);
            executing;
            executing;
            any (CombinedOutput cmd);
            any (Log (Git.logger g)
                   [ (ErrorLogField, VError err);
                     ("output", VString output);
                     ("command", VString (Git.Command input)) ]
                   LevelError "Git command failed" []);
            any (RecordError sp err);
            any (SpanEnd sp) ]).
Proof.
  intros params w cmd output err. split.
  - intros b input Hd. unfold Bash.handler; simpl. rewrite Hd; simpl.
    destruct (fst (env _ (ExecuteCommand _ _) _)) as [o [e|]]; simpl;
      intros Hp; inversion Hp; subst; reflexivity.
  - intros g input Hd. unfold Git.handler; simpl. rewrite Hd; simpl.
    destruct (fst (env _ (CombinedOutput _) _)) as [o [e|]]; simpl;
      intros Hp; inversion Hp; subst; reflexivity.
Qed.

Ltac untouched :=
  let fld := fresh "fld" in
  let v := fresh "v" in
  let Hin := fresh "Hin" in
  let Hne := fresh "Hne" in
  intros fld v ? Hin Hne; simpl in Hin;
  repeat (destruct Hin as [<- | Hin]);
  try contradiction; simpl in Hne; try congruence;
  simpl; destruct v; simpl;
  repeat match goal with
         | |- context [let (_, _) := ?x in _] => destruct x
         end; reflexivity.

(** X7.  The configured [DefaultRepoPath] is no default: a payload that
    decodes and has no member for repo_path makes git run with the empty
    path after -C, whatever the configuration of the wrapper. *)
Theorem default_repo_path_is_not_used :
  forall (g : Git.Git) (params : CallToolParams)
         (ms : list (string * Json.value)) (input : Git.input) (w : W),
    Json.parse (Arguments params) = inr (Json.Object ms) ->
    Json.omits Git.fields "repo_path" ms = true ->
    Json.Unmarshal Git.fields (Arguments params) Git.zero = (input, None) ->
    map (fun p => Args (fst p))
        (processes (trace (run env (Git.handler g params) w)))
    = [ ("git" :: "-C" :: "" :: Git.Command input :: Git.Args input)%list ].
Proof.
  intros g params ms input w Hp Ho Hd.
  assert (Hz : Git.RepoPath input = "").
  { pose proof (decode_members_frame Git.RepoPath Git.fields "repo_path"
                  ltac:(untouched) ms Ho Git.zero None) as Hz.
    unfold Json.Unmarshal in Hd. rewrite Hp in Hd. simpl in Hd.
    rewrite Hd in Hz. exact Hz. }
  unfold Git.handler; simpl. rewrite Hd; simpl. rewrite Hz.
  destruct (fst (env _ (CombinedOutput _) _)) as [o [e|]]; reflexivity.
Qed.

(** ** The envelope *)

(** X8.  A handler never returns a non-nil error beside a filled
    envelope: with a non-nil error the envelope is the zero value.  The
    error is then the decoding error (wrapped, but for get_weather), or,
    for the repository tool, the error of a lookup of the source branch,
    handed on as it came. *)
Theorem error_comes_with_the_zero_envelope :
  forall (i : Instances) (k : ToolKind) (params : CallToolParams) (w : W)
         (r : CallToolResult) (e : error),
    outcome (run env (handler_of i k params) w) = Returned (r, Some e) ->
    r = emptyResult
    /\ ((exists err : error,
            decode_error k (Arguments params) = Some err
            /\ e = decode_failure k err)
        \/ (k = github_repository
            /\ exists ref : option Reference,
                 pick GetRef_answer
                   (trace (run env (handler_of i k params) w))
                 = [ (ref, Some e) ])).
Proof.
  intros i k params w r e.
  destruct k; unfold decode_error; simpl.
  - unfold GetWeather.handler; simpl.
    destruct (Json.Unmarshal _ _ _) as [input [e'|]]; simpl;
      intros Hr; inversion Hr; subst.
    split; [reflexivity | left; eexists; split; reflexivity].
  - unfold Bash.handler; simpl.
    destruct (Json.Unmarshal _ _ _) as [input [e'|]]; simpl.
    + intros Hr; inversion Hr; subst.
      split; [reflexivity | left; eexists; split; reflexivity].
    + destruct (fst (env _ (ExecuteCommand _ _) _)) as [o [e'|]]; simpl;
        discriminate.
  - unfold Git.handler; simpl.
    destruct (Json.Unmarshal _ _ _) as [input [e'|]]; simpl.
    + intros Hr; inversion Hr; subst.
      split; [reflexivity | left; eexists; split; reflexivity].
    + destruct (fst (env _ (CombinedOutput _) _)) as [o [e'|]]; simpl;
        discriminate.
  - unfold GitHub.handleRepositoryOperation; simpl.
    destruct (Json.Unmarshal _ _ _) as [input [e'|]]; simpl.
    + intros Hr; inversion Hr; subst.
      split; [reflexivity | left; eexists; split; reflexivity].
    + every_operation; intros Hr; try discriminate; inversion Hr; subst;
        (split; [reflexivity
                | right; split; [reflexivity | eexists; reflexivity]]).
Qed.

(** ** The repository tool *)

(** X9.  When the one remote call of create, delete, update, fork,
    list_branches or protect_branch comes back with an error, the handler
    returns a nil error and the envelope [returnErrorOutput] makes of the
    wrapped error: [is_error=true] and the text
    "github repository <operation> error: <message of the error>". *)
Theorem remote_failure_is_a_handled_failure :
  forall (mm : GitHub.Result -> string) (g : GitHub.GitHub)
         (params : CallToolParams) (input : GitHub.input) (w : W)
         (err : error),
    Json.Unmarshal GitHub.fields (Arguments params) GitHub.zero
    = (input, None) ->
    In (GitHub.Operation input) single_call_operations ->
    let r := run env (GitHub.handleRepositoryOperation mm g params) w in
    pick remote_error (trace r) = [ Some err ] ->
    outcome r
    = Returned
        ({| Content :=
              [ {| Type_ := "text";
                   Text := "github repository " ++ GitHub.Operation input
                           ++ " error: " ++ Error err |} ];
            IsError := true |}, None).
Proof.
  intros mm g params input w err Hd Hin.
  unfold GitHub.handleRepositoryOperation; simpl.
  rewrite Hd. unfold GitHub.switch, GitHub.after_switch. simpl in Hin.
  destruct Hin as [<- | [<- | [<- | [<- | [<- | [<- | []]]]]]]; simpl;
    remote_answer; split_answers; intros Hr; inversion Hr; subst;
    reflexivity.
Qed.

(** X10.  What each operation asks of the remote.  create makes the
    repository under the authenticated account, the organisation being
    the empty string, and ignores the owner of the input; update sends
    the description and the visibility and never a name; delete, fork and
    list_branches name the owner and the repository and send the zero
    options. *)
Theorem what_each_operation_asks :
  forall (mm : GitHub.Result -> string) (g : GitHub.GitHub)
         (params : CallToolParams) (input : GitHub.input) (w : W),
    Json.Unmarshal GitHub.fields (Arguments params) GitHub.zero
    = (input, None) ->
    let q := pick remote_request
               (trace (run env
                         (GitHub.handleRepositoryOperation mm g params) w)) in
    (GitHub.Operation input = "create" ->
     q = [ asked (Repositories_Create ""
                    {| Repository_Name := Some (GitHub.Repo input);
                       Repository_Description :=
                         Some (GitHub.Description input);
                       Repository_Private :=
                         Some (GitHub.Private input) |}) ])
    /\ (GitHub.Operation input = "delete" ->
        q = [ asked (Repositories_Delete (GitHub.Owner input)
                       (GitHub.Repo input)) ])
    /\ (GitHub.Operation input = "update" ->
        q = [ asked (Repositories_Edit (GitHub.Owner input)
                       (GitHub.Repo input)
                       {| Repository_Name := None;
                          Repository_Description :=
                            Some (GitHub.Description input);
                          Repository_Private :=
                            Some (GitHub.Private input) |}) ])
    /\ (GitHub.Operation input = "fork" ->
        q = [ asked (Repositories_CreateFork (GitHub.Owner input)
                       (GitHub.Repo input)
                       {| Organization := "";
                          DefaultBranchOnly := false |}) ])
    /\ (GitHub.Operation input = "list_branches" ->
        q = [ asked (Repositories_ListBranches (GitHub.Owner input)
                       (GitHub.Repo input) {| Protected := None |}) ]).
Proof.
  intros mm g params input w Hd.
  unfold GitHub.handleRepositoryOperation; simpl.
  rewrite Hd. unfold GitHub.switch.
  repeat split; intros ->; simpl;
    remote_answer; split_answers; reflexivity.
Qed.

(** X11.  In a create_branch invocation whose lookup returns a reference
    with its object, the lookup is for refs/heads/<source_branch> and the
    creation, asked next, is for refs/heads/<branch> at the SHA the lookup
    returned. *)
Theorem new_branch_points_at_the_source :
  forall (mm : GitHub.Result -> string) (g : GitHub.GitHub)
         (params : CallToolParams) (input : GitHub.input) (w : W)
         (ref : Reference) (object : GitObject),
    Json.Unmarshal GitHub.fields (Arguments params) GitHub.zero
    = (input, None) ->
    GitHub.Operation input = "create_branch" ->
    let r := run env (GitHub.handleRepositoryOperation mm g params) w in
    pick GetRef_answer (trace r) = [ (Some ref, None) ] ->
    Object ref = Some object ->
    pick remote_request (trace r)
    = [ asked (Git_GetRef (GitHub.Owner input) (GitHub.Repo input)
                 ("refs/heads/" ++ GitHub.SourceBranch input));
        asked (Git_CreateRef (GitHub.Owner input) (GitHub.Repo input)
                 {| Ref := Some ("refs/heads/" ++ GitHub.Branch_ input);
                    Object := Some {| SHA := SHA object |} |}) ].
Proof.
  intros mm g params input w ref object Hd Hop.
  unfold GitHub.handleRepositoryOperation; simpl.
  rewrite Hd. unfold GitHub.switch. rewrite Hop; simpl.
  destruct (fst (env _ (GitHubCall _ (Git_GetRef _ _ _)) _))
    as [[ref'|] [err|]]; simpl; intros Hg Ho; try discriminate.
  injection Hg as ->. rewrite Ho; simpl.
  remote_answer; split_answers; reflexivity.
Qed.

(** X12.  In a create_branch invocation whose lookup returns a nil
    error with a nil reference, or with a reference that has no object,
    the handler panics at [ref.Object.SHA] with the run-time error of a
    nil pointer dereference: no creation is asked for, and the span is
    closed all the same. *)
Theorem lookup_without_object_panics :
  forall (mm : GitHub.Result -> string) (g : GitHub.GitHub)
         (params : CallToolParams) (input : GitHub.input) (w : W)
         (ref : option Reference),
    Json.Unmarshal GitHub.fields (Arguments params) GitHub.zero
    = (input, None) ->
    GitHub.Operation input = "create_branch" ->
    let r := run env (GitHub.handleRepositoryOperation mm g params) w in
    pick GetRef_answer (trace r) = [ (ref, None) ] ->
    match ref with
    | Some x => Object x = None
    | None => True
    end ->
    outcome r
    = Panicked
        "runtime error: invalid memory address or nil pointer dereference"
    /\ pick CreateRef_answer (trace r) = []
    /\ last_error (calls (trace r))
       = Some (any (SpanEnd
                      (fst (env Span (StartSpan (Name params ++ ".Handler"))
                              w)))).
Proof.
  intros mm g params input w ref Hd Hop.
  unfold GitHub.handleRepositoryOperation; simpl.
  rewrite Hd. unfold GitHub.switch. rewrite Hop; simpl.
  destruct (fst (env _ (GitHubCall _ (Git_GetRef _ _ _)) _))
    as [[[name [object|]]|] [err|]]; simpl; intros Hg; try discriminate;
    inversion Hg; subst; simpl; intros Ho; try discriminate;
    repeat split; reflexivity.
Qed.

(** X13.  On a successful delete the handler reports a status of its own,
    the map with the one entry status: deleted, through [mustMarshal], in
    a json payload. *)
Theorem delete_reports_its_own_status :
  forall (mm : GitHub.Result -> string) (g : GitHub.GitHub)
         (params : CallToolParams) (input : GitHub.input) (w : W),
    Json.Unmarshal GitHub.fields (Arguments params) GitHub.zero
    = (input, None) ->
    GitHub.Operation input = "delete" ->
    let r := run env (GitHub.handleRepositoryOperation mm g params) w in
    pick remote_error (trace r) = [ None ] ->
    outcome r
    = Returned
        ({| Content :=
              [ {| Type_ := "json";
                   Text := mm (GitHub.StatusResult
                                 [ ("status", "deleted") ]) |} ];
            IsError := false |}, None).
Proof.
  intros mm g params input w Hd Hop.
  unfold GitHub.handleRepositoryOperation; simpl.
  rewrite Hd. unfold GitHub.switch. rewrite Hop; simpl.
  remote_answer; split_answers; intros Hr; inversion Hr; reflexivity.
Qed.

(** X16.  An operation the switch has no case for is answered without
    a word to the logger beyond the payload received: the calls are the
    opening of the span, the log of the payload and the closing of the
    span.  Nothing is logged at the level of errors. *)
Theorem unsupported_operation_is_not_logged :
  forall (mm : GitHub.Result -> string) (g : GitHub.GitHub)
         (params : CallToolParams) (input : GitHub.input) (w : W),
    Json.Unmarshal GitHub.fields (Arguments params) GitHub.zero
    = (input, None) ->
    ~ In (GitHub.Operation input) GitHub.operations ->
    let name := Name params ++ ".Handler" in
    calls (trace (run env (GitHub.handleRepositoryOperation mm g params) w))
    = [ any (StartSpan name);
        any (Log (GitHub.logger g)
               [ ("tool", VString (Name params));
                 ("operation", VString (Arguments params)) ]
               LevelInfo "handling repository operation" []);
        any (SpanEnd (fst (env Span (StartSpan name) w))) ].
Proof.
  intros mm g params input w Hd Hn.
  apply not_listed in Hn.
  destruct Hn as (E1 & E2 & E3 & E4 & E5 & E6 & E7).
  unfold GitHub.handleRepositoryOperation; simpl.
  rewrite Hd. unfold GitHub.switch.
  rewrite E1, E2, E3, E4, E5, E6, E7. reflexivity.
Qed.

(** ** The schemas *)

(** X14.  The repository handler supports the operations its schema
    enumerates, and no other: the payload decoded, the handler makes a
    remote call exactly when the operation is one of the enumeration. *)
Theorem schema_enumerates_the_supported_operations :
  forall (mm : GitHub.Result -> string) (g : GitHub.GitHub)
         (params : CallToolParams) (input : GitHub.input) (w : W),
    Json.Unmarshal GitHub.fields (Arguments params) GitHub.zero
    = (input, None) ->
    (In (GitHub.Operation input) (operation_enum GitHub.Schema)
     <-> remote_calls
           (trace (run env (GitHub.handleRepositoryOperation mm g params) w))
         <> []).
Proof.
  intros mm g params input w Hd.
  assert (He : operation_enum GitHub.Schema = GitHub.operations)
    by (vm_compute; reflexivity).
  rewrite He.
  unfold GitHub.handleRepositoryOperation; simpl.
  rewrite Hd. unfold GitHub.switch. split.
  - intros Hin. simpl in Hin.
    destruct Hin as [<- | [<- | [<- | [<- | [<- | [<- | [<- | []]]]]]]];
      simpl; remote_answer; split_answers; discriminate.
  - intros Hcalls.
    destruct (in_dec string_dec (GitHub.Operation input) GitHub.operations)
      as [Hin | Hn]; [exact Hin | exfalso].
    apply not_listed in Hn.
    destruct Hn as (E1 & E2 & E3 & E4 & E5 & E6 & E7).
    rewrite E1, E2, E3, E4, E5, E6, E7 in Hcalls. simpl in Hcalls.
    now apply Hcalls.
Qed.

(** X15.  For each tool the properties its schema declares are the json
    tags of the structure its handler decodes into, in the same order, and
    the fields the schema requires are among them. *)
Theorem schema_declares_the_fields_decoded :
  forall k : ToolKind,
    schema_properties (schema_of k) = tags k
    /\ incl (required_fields (schema_of k)) (tags k).
Proof.
  intros k. destruct k; (split; [vm_compute; reflexivity |]);
    intros f Hf; vm_compute in Hf; vm_compute; tauto.
Qed.

End Behaviour.

(** * The properties in the scripted world *)

Import Scripted.

#[local] Existing Instance collaborators.

(** C1 at a payload that is cut short, for the git tool, and at one whose
    values are numbers where strings are expected, for get_weather. *)
Lemma decode_failure_is_transport_error_witness :
  (decode_error git (Q malformed)
   = Some (SyntaxError "unexpected end of JSON input")
   /\ exists r : CallToolResult,
        outcome (run (env exit_128 remote_ok)
                   (handler_of tools git (params "git" malformed)) tt)
        = Returned
            (r, Some (decode_failure git
                        (SyntaxError "unexpected end of JSON input")))
        /\ Content r = [])
  /\
  (decode_error get_weather (Q mistyped)
   = Some (UnmarshalTypeError "number" "string" "location")
   /\ exists r : CallToolResult,
        outcome (run (env exit_128 remote_ok)
                   (handler_of tools get_weather
                      (params "get_weather" mistyped)) tt)
        = Returned
            (r, Some (decode_failure get_weather
                        (UnmarshalTypeError "number" "string" "location")))
        /\ Content r = []).
Proof.
  split; (split; [vm_compute; reflexivity |]).
  - apply (decode_failure_is_transport_error (env exit_128 remote_ok)
             tools git (params "git" malformed)).
    vm_compute; reflexivity.
  - apply (decode_failure_is_transport_error (env exit_128 remote_ok)
             tools get_weather (params "get_weather" mistyped)).
    vm_compute; reflexivity.
Defined.

(** C2 at the operation rename. *)
Lemma unsupported_operation_is_domain_failure_witness :
  Json.Unmarshal GitHub.fields (Q rename_repo) GitHub.zero
  = (rename_input, None)
  /\ ~ In "rename" GitHub.operations
  /\ let r := run (env echo_hi remote_ok)
                (GitHub.handleRepositoryOperation marshal github_tool
                   (params "github_repository" rename_repo)) tt in
     outcome r
     = Returned
         ({| Content :=
               [ {| Type_ := "text";
                    Text := "unsupported operation: rename" |} ];
             IsError := true |}, None)
     /\ remote_calls (trace r) = [].
Proof.
  assert (Hd : Json.Unmarshal GitHub.fields (Q rename_repo) GitHub.zero
               = (rename_input, None)) by (vm_compute; reflexivity).
  assert (Hn : ~ In "rename" GitHub.operations)
    by (vm_compute; intuition discriminate).
  split; [exact Hd | split; [exact Hn |]].
  exact (unsupported_operation_is_domain_failure (env echo_hi remote_ok)
           marshal github_tool (params "github_repository" rename_repo)
           rename_input tt Hd Hn).
Defined.

(** C3, the claim as stated, fails: git status in a directory that is no
    repository ends with exit status 128 after writing its complaint; the
    envelope has [is_error=true] and a nil error, and its only text is
    "exit status 128", in which the captured output does not occur. *)
Lemma git_failure_text_omits_the_output :
  let r := run (env exit_128 remote_ok)
             (Git.handler git_tool (params "git" status)) tt in
  processes (trace r)
  = [ (status_cmd, (not_a_repository, Some (errorString "exit status 128"))) ]
  /\ outcome r
     = Returned
         ({| Content :=
               [ {| Type_ := "text"; Text := "exit status 128" |} ];
             IsError := true |}, None)
  /\ includes not_a_repository "exit status 128" = false
  /\ includes "not a git repository" "exit status 128" = false.
Proof.
  vm_compute. repeat split.
Qed.

(** C3 as amended, at the same run. *)
Lemma process_failure_reports_the_error_message_witness :
  outcome (run (env exit_128 remote_ok)
             (Git.handler git_tool (params "git" status)) tt)
  = Returned
      ({| Content :=
            [ {| Type_ := "text";
                 Text := Error (errorString "exit status 128") |} ];
          IsError := true |}, None).
Proof.
  destruct (process_failure_reports_the_error_message
              (env exit_128 remote_ok) (params "git" status) tt status_cmd
              not_a_repository (errorString "exit status 128")) as [_ Hgit].
  apply Hgit. vm_compute; reflexivity.
Defined.

(** C4 where the reference to create exists already: the creation fails
    and the handler returns a success whose text is that of a nil
    reference. *)
Lemma create_branch_discards_creation_error_witness :
  let r := run (env echo_hi creation_fails)
             (GitHub.handleRepositoryOperation marshal github_tool
                (params "github_repository" create_branch)) tt in
  pick CreateRef_answer (trace r)
  = [ (None, Some (errorString "422 Reference already exists")) ]
  /\ outcome r
     = Returned
         ({| Content := [ {| Type_ := "json"; Text := "null" |} ];
             IsError := false |}, None).
Proof.
  split; [vm_compute; reflexivity |].
  destruct (create_branch_discards_creation_error
              (env echo_hi creation_fails) marshal github_tool
              (params "github_repository" create_branch)
              create_branch_input tt main_ref {| SHA := Some sha |})
    as [_ Hall].
  - vm_compute; reflexivity.
  - reflexivity.
  - vm_compute; reflexivity.
  - reflexivity.
  - apply (Hall None (Some (errorString "422 Reference already exists"))).
    vm_compute. left; reflexivity.
Defined.

(** C4, the claim as stated, fails: the lookup of the source branch
    returns a nil error and a reference that has no object; the handler
    panics at [ref.Object.SHA] and returns no envelope, and the creation
    is never asked for. *)
Example create_branch_panics_without_object :
  let r := run (env echo_hi lookup_without_object)
             (GitHub.handleRepositoryOperation marshal github_tool
                (params "github_repository" create_branch)) tt in
  pick GetRef_answer (trace r) = [ (Some bare_ref, None) ]
  /\ outcome r
     = Panicked
         "runtime error: invalid memory address or nil pointer dereference"
  /\ (forall ret : Return, outcome r <> Returned ret)
  /\ pick CreateRef_answer (trace r) = [].
Proof.
  vm_compute. repeat split; discriminate.
Qed.

(** C5 where the source branch does not exist, and for list_branches. *)
Lemma create_branch_stops_at_failed_lookup_witness :
  (let r := run (env echo_hi lookup_fails)
              (GitHub.handleRepositoryOperation marshal github_tool
                 (params "github_repository" create_branch)) tt in
   outcome r = Returned (emptyResult, Some (errorString "404 Not Found"))
   /\ pick CreateRef_answer (trace r) = []
   /\ length (remote_calls (trace r)) = 1)
  /\
  length (remote_calls
            (trace (run (env echo_hi remote_ok)
                      (GitHub.handleRepositoryOperation marshal github_tool
                         (params "github_repository" list_branches)) tt)))
  = 1.
Proof.
  split.
  - destruct (create_branch_stops_at_failed_lookup
                (env echo_hi lookup_fails) marshal github_tool
                (params "github_repository" create_branch)
                create_branch_input tt) as [Hfail _].
    + vm_compute; reflexivity.
    + apply (Hfail eq_refl None (errorString "404 Not Found")).
      vm_compute; reflexivity.
  - destruct (create_branch_stops_at_failed_lookup
                (env echo_hi remote_ok) marshal github_tool
                (params "github_repository" list_branches)
                list_branches_input tt) as [_ Hone].
    + vm_compute; reflexivity.
    + apply Hone. vm_compute. tauto.
Defined.

(** C6, the claim as stated, fails: the payload [{}] is well-formed JSON
    and has no location, which the schema of get_weather requires; the
    handler returns a nil error and a weather report for the empty
    location. *)
Lemma missing_location_is_not_rejected :
  Json.parse (Q no_fields) = inr (Json.Object [])
  /\ In "location" (required_fields (schema_of get_weather))
  /\ omits get_weather "location" [] = true
  /\ outcome (run (env echo_hi remote_ok)
                (handler_of tools get_weather
                   (params "get_weather" no_fields)) tt)
     = Returned
         ({| Content :=
               [ {| Type_ := "text";
                    Text := "Weather in : Sunny, 72°F" |} ];
             IsError := false |}, None).
Proof.
  repeat split; vm_compute; auto.
Qed.

(** C6 as amended, for a git payload without repo_path. *)
Lemma omitted_required_field_is_zero_witness :
  decode_error git (Q status_only) = None
  /\ In ("repo_path", "") (decoded_strings git (Q status_only))
  /\ exists r : CallToolResult,
       outcome (run (env echo_hi remote_ok)
                  (handler_of tools git (params "git" status_only)) tt)
       = Returned (r, None).
Proof.
  apply (omitted_required_field_is_zero (env echo_hi remote_ok) tools git
           (params "git" status_only)
           [ ("command", Json.Str "status") ] "repo_path" tt).
  - vm_compute; reflexivity.
  - vm_compute; tauto.
  - vm_compute; reflexivity.
  - intros key v fld Hin Hfind t. simpl in Hin.
    destruct Hin as [Heq | []]. inversion Heq; subst.
    vm_compute in Hfind. inversion Hfind; subst. reflexivity.
Defined.

(** C7 for echo hi and for git log with three arguments. *)
Lemma argument_vector_of_the_process_witness :
  (Json.Unmarshal Bash.fields (Q echo) Bash.zero = (echo_input, None)
   /\ map (fun p => Args (fst p))
        (processes (trace (run (env echo_hi remote_ok)
                             (Bash.handler (the_bash tools)
                                (params "bash" echo)) tt)))
      = [ ["bash"; "-c"; "echo hi"] ])
  /\
  (Json.Unmarshal Git.fields (Q log_oneline) Git.zero = (log_input, None)
   /\ map (fun p => Args (fst p))
        (processes (trace (run (env echo_hi remote_ok)
                             (Git.handler git_tool
                                (params "git" log_oneline)) tt)))
      = [ ["git"; "-C"; "/srv/repo"; "log"; "--oneline"; "-n"; "5"] ]).
Proof.
  split; (split; [vm_compute; reflexivity |]).
  - destruct (argument_vector_of_the_process (env echo_hi remote_ok)
                (params "bash" echo) tt) as [Hbash _].
    apply (Hbash (the_bash tools) echo_input). vm_compute; reflexivity.
  - destruct (argument_vector_of_the_process (env echo_hi remote_ok)
                (params "git" log_oneline) tt) as [_ Hgit].
    apply (Hgit git_tool log_input). vm_compute; reflexivity.
Defined.

(** C8 with log on the list of blocked commands. *)
Lemma blocked_commands_are_not_enforced_witness :
  run (env echo_hi remote_ok)
    (Git.handler (git_with ["log"; "push"]) (params "git" log_oneline)) tt
  = run (env echo_hi remote_ok)
      (Git.handler (git_with []) (params "git" log_oneline)) tt
  /\
  map (fun p => Args (fst p))
    (processes (trace (run (env echo_hi remote_ok)
                         (Git.handler (git_with ["log"; "push"])
                            (params "git" log_oneline)) tt)))
  = [ ["git"; "-C"; "/srv/repo"; "log"; "--oneline"; "-n"; "5"] ].
Proof.
  destruct (blocked_commands_are_not_enforced (env echo_hi remote_ok)
              (tt : @Logger collaborators) "." ["log"; "push"] [] (params "git" log_oneline)
              tt) as [Hsame Hrun].
  split.
  - exact Hsame.
  - apply (Hrun log_input).
    + vm_compute; reflexivity.
    + simpl; tauto.
Defined.

(** C9 for a listing of branches. *)
Lemma success_carries_one_content_witness :
  outcome (run (env echo_hi remote_ok)
             (handler_of tools github_repository
                (params "github_repository" list_branches)) tt)
  = Returned (branches_listed, None)
  /\ IsError branches_listed = false
  /\ exists text : string,
       Content branches_listed
       = [ {| Type_ := content_type github_repository; Text := text |} ].
Proof.
  assert (Hr : outcome (run (env echo_hi remote_ok)
                          (handler_of tools github_repository
                             (params "github_repository" list_branches)) tt)
               = Returned (branches_listed, None))
    by (vm_compute; reflexivity).
  split; [exact Hr | split; [reflexivity |]].
  exact (success_carries_one_content (env echo_hi remote_ok) tools
           github_repository (params "github_repository" list_branches) tt
           branches_listed Hr eq_refl).
Defined.

(** C10 for the branch main of octocat/hello. *)
Lemma protect_branch_request_is_fixed_witness :
  Json.Unmarshal GitHub.fields (Q protect_branch) GitHub.zero
  = (protect_branch_input, None)
  /\ pick protection_request
       (trace (run (env echo_hi remote_ok)
                 (GitHub.handleRepositoryOperation marshal github_tool
                    (params "github_repository" protect_branch)) tt))
     = [ ("octocat", "hello", "main", protection_sent) ]
  /\ option_map Strict (RequiredStatusChecks_ protection_sent) = Some true
  /\ option_map RequiredApprovingReviewCount
       (RequiredPullRequestReviews protection_sent) = Some 1%Z.
Proof.
  assert (Hd : Json.Unmarshal GitHub.fields (Q protect_branch) GitHub.zero
               = (protect_branch_input, None)) by (vm_compute; reflexivity).
  split; [exact Hd |].
  exact (protect_branch_request_is_fixed (env echo_hi remote_ok) marshal
           github_tool (params "github_repository" protect_branch)
           protect_branch_input tt Hd eq_refl).
Defined.

(** * The further properties in the scripted world *)

(** X1 on the way out by a panic. *)
Lemma span_covers_the_whole_call_witness :
  let t := calls (trace (run (env echo_hi lookup_without_object)
                           (handler_of tools github_repository
                              (params "github_repository" create_branch))
                           tt)) in
  hd_error t = Some (any (StartSpan "github_repository.Handler"))
  /\ last_error t = Some (any (SpanEnd tt))
  /\ filter is_span_boundary t
     = [ any (StartSpan "github_repository.Handler"); any (SpanEnd tt) ].
Proof.
  apply (span_covers_the_whole_call (env echo_hi lookup_without_object)
           tools github_repository
           (params "github_repository" create_branch) tt).
  discriminate.
Defined.

(** X3 for the git tool and a payload cut short. *)
Lemma what_a_decoding_failure_leaves_behind_witness :
  pick recorded_error
    (trace (run (env echo_hi remote_ok)
              (handler_of tools git (params "git" malformed)) tt))
  = [ SyntaxError "unexpected end of JSON input" ]
  /\ length (calls (trace (run (env echo_hi remote_ok)
                             (handler_of tools git (params "git" malformed))
                             tt))) = 6.
Proof.
  pose proof (what_a_decoding_failure_leaves_behind (env echo_hi remote_ok)
                tools (params "git" malformed) tt git
                (SyntaxError "unexpected end of JSON input")
                ltac:(vm_compute; reflexivity)) as Hc.
  split; [vm_compute; reflexivity |].
  rewrite Hc. reflexivity.
Defined.

(** X5 for echo hi. *)
Lemma output_is_returned_verbatim_witness :
  outcome (run (env echo_hi remote_ok)
             (Bash.handler (the_bash tools) (params "bash" echo)) tt)
  = Returned
      ({| Content := [ {| Type_ := "text"; Text := "hi" ++ newline |} ];
          IsError := false |}, None).
Proof.
  destruct (output_is_returned_verbatim (env echo_hi remote_ok)
              (params "bash" echo) tt echo_cmd ("hi" ++ newline))
    as [Hbash _].
  apply Hbash. vm_compute; reflexivity.
Defined.

(** X6 for git status where there is no repository. *)
Lemma what_a_failed_process_leaves_behind_witness :
  In (any (Log (Git.logger git_tool)
             [ (ErrorLogField, VError (errorString "exit status 128"));
               ("output", VString not_a_repository);
               ("command", VString "status") ]
             LevelError "Git command failed" []))
    (calls (trace (run (env exit_128 remote_ok)
                     (Git.handler git_tool (params "git" status)) tt))).
Proof.
  destruct (what_a_failed_process_leaves_behind (env exit_128 remote_ok)
              (params "git" status) tt status_cmd not_a_repository
              (errorString "exit status 128")) as [_ Hgit].
  rewrite (Hgit git_tool status_input
             ltac:(vm_compute; reflexivity) ltac:(vm_compute; reflexivity)).
  simpl. tauto.
Defined.

(** X7 for a wrapper whose default path is the current directory. *)
Lemma default_repo_path_is_not_used_witness :
  Git.DefaultRepoPath (Git.config git_tool) = "."
  /\ map (fun p => Args (fst p))
       (processes (trace (run (env echo_hi remote_ok)
                            (Git.handler git_tool
                               (params "git" status_only)) tt)))
     = [ ["git"; "-C"; ""; "status"] ].
Proof.
  split; [reflexivity |].
  apply (default_repo_path_is_not_used (env echo_hi remote_ok) git_tool
           (params "git" status_only) [ ("command", Json.Str "status") ]
           status_only_input tt).
  - vm_compute; reflexivity.
  - vm_compute; reflexivity.
  - vm_compute; reflexivity.
Defined.

(** X8 where the source branch does not exist. *)
Lemma error_comes_with_the_zero_envelope_witness :
  outcome (run (env echo_hi lookup_fails)
             (handler_of tools github_repository
                (params "github_repository" create_branch)) tt)
  = Returned (emptyResult, Some (errorString "404 Not Found"))
  /\ emptyResult = emptyResult
  /\ ((exists err : error,
          decode_error github_repository (Q create_branch) = Some err
          /\ errorString "404 Not Found"
             = decode_failure github_repository err)
      \/ (github_repository = github_repository
          /\ exists ref : option Reference,
               pick GetRef_answer
                 (trace (run (env echo_hi lookup_fails)
                           (handler_of tools github_repository
                              (params "github_repository" create_branch))
                           tt))
               = [ (ref, Some (errorString "404 Not Found")) ])).
Proof.
  assert (Hr : outcome (run (env echo_hi lookup_fails)
                          (handler_of tools github_repository
                             (params "github_repository" create_branch))
                          tt)
               = Returned (emptyResult, Some (errorString "404 Not Found")))
    by (vm_compute; reflexivity).
  split; [exact Hr |].
  exact (error_comes_with_the_zero_envelope (env echo_hi lookup_fails)
           tools github_repository
           (params "github_repository" create_branch) tt
           emptyResult (errorString "404 Not Found") Hr).
Defined.

(** X9 for a listing of branches while the remote is down. *)
Lemma remote_failure_is_a_handled_failure_witness :
  outcome (run (env echo_hi remote_down)
             (GitHub.handleRepositoryOperation marshal github_tool
                (params "github_repository" list_branches)) tt)
  = Returned
      ({| Content :=
            [ {| Type_ := "text";
                 Text := "github repository list_branches error: 503 unavailable" |} ];
          IsError := true |}, None).
Proof.
  apply (remote_failure_is_a_handled_failure (env echo_hi remote_down)
           marshal github_tool (params "github_repository" list_branches)
           list_branches_input tt (errorString "503 unavailable")).
  - vm_compute; reflexivity.
  - vm_compute; tauto.
  - vm_compute; reflexivity.
Defined.

(** X10 for a create whose payload names an owner. *)
Lemma what_each_operation_asks_witness :
  GitHub.Owner create_repo_input = "octocat"
  /\ pick remote_request
       (trace (run (env echo_hi remote_ok)
                 (GitHub.handleRepositoryOperation marshal github_tool
                    (params "github_repository" create_repo)) tt))
     = [ asked (Repositories_Create ""
                  {| Repository_Name := Some "hello";
                     Repository_Description := Some "first";
                     Repository_Private := Some true |}) ].
Proof.
  split; [reflexivity |].
  destruct (what_each_operation_asks (env echo_hi remote_ok) marshal
              github_tool (params "github_repository" create_repo)
              create_repo_input tt ltac:(vm_compute; reflexivity))
    as [Hcreate _].
  apply Hcreate. reflexivity.
Defined.

(** X11 for the branch feature made from main. *)
Lemma new_branch_points_at_the_source_witness :
  pick remote_request
    (trace (run (env echo_hi remote_ok)
              (GitHub.handleRepositoryOperation marshal github_tool
                 (params "github_repository" create_branch)) tt))
  = [ asked (Git_GetRef "octocat" "hello" "refs/heads/main");
      asked (Git_CreateRef "octocat" "hello"
               {| Ref := Some "refs/heads/feature";
                  Object := Some {| SHA := Some sha |} |}) ].
Proof.
  apply (new_branch_points_at_the_source (env echo_hi remote_ok) marshal
           github_tool (params "github_repository" create_branch)
           create_branch_input tt main_ref {| SHA := Some sha |}).
  - vm_compute; reflexivity.
  - reflexivity.
  - vm_compute; reflexivity.
  - reflexivity.
Defined.

(** X12 for a lookup that returns a reference without object. *)
Lemma lookup_without_object_panics_witness :
  let r := run (env echo_hi lookup_without_object)
             (GitHub.handleRepositoryOperation marshal github_tool
                (params "github_repository" create_branch)) tt in
  pick GetRef_answer (trace r) = [ (Some bare_ref, None) ]
  /\ outcome r
     = Panicked
         "runtime error: invalid memory address or nil pointer dereference"
  /\ pick CreateRef_answer (trace r) = []
  /\ last_error (calls (trace r)) = Some (any (SpanEnd tt)).
Proof.
  split; [vm_compute; reflexivity |].
  apply (lookup_without_object_panics (env echo_hi lookup_without_object)
           marshal github_tool (params "github_repository" create_branch)
           create_branch_input tt (Some bare_ref)).
  - vm_compute; reflexivity.
  - reflexivity.
  - vm_compute; reflexivity.
  - reflexivity.
Defined.

(** X13 for the repository octocat/hello. *)
Lemma delete_reports_its_own_status_witness :
  outcome (run (env echo_hi remote_ok)
             (GitHub.handleRepositoryOperation marshal github_tool
                (params "github_repository" delete_repo)) tt)
  = Returned
      ({| Content :=
            [ {| Type_ := "json"; Text := Q "{'status':'deleted'}" |} ];
          IsError := false |}, None).
Proof.
  apply (delete_reports_its_own_status (env echo_hi remote_ok) marshal
           github_tool (params "github_repository" delete_repo)
           delete_repo_input tt).
  - vm_compute; reflexivity.
  - reflexivity.
  - vm_compute; reflexivity.
Defined.

(** X14 for rename, which the schema does not enumerate. *)
Lemma schema_enumerates_the_supported_operations_witness :
  In "rename" (operation_enum GitHub.Schema)
  <-> remote_calls
        (trace (run (env echo_hi remote_ok)
                  (GitHub.handleRepositoryOperation marshal github_tool
                     (params "github_repository" rename_repo)) tt))
      <> [].
Proof.
  apply (schema_enumerates_the_supported_operations (env echo_hi remote_ok)
           marshal github_tool (params "github_repository" rename_repo)
           rename_input tt).
  vm_compute; reflexivity.
Defined.

(** X16 for the operation rename. *)
Lemma unsupported_operation_is_not_logged_witness :
  calls (trace (run (env echo_hi remote_ok)
                  (GitHub.handleRepositoryOperation marshal github_tool
                     (params "github_repository" rename_repo)) tt))
  = [ any (StartSpan "github_repository.Handler");
      any (Log (GitHub.logger github_tool)
             [ ("tool", VString "github_repository");
               ("operation", VString (Q rename_repo)) ]
             LevelInfo "handling repository operation" []);
      any (SpanEnd tt) ].
Proof.
  apply (unsupported_operation_is_not_logged (env echo_hi remote_ok) marshal
           github_tool (params "github_repository" rename_repo)
           rename_input tt).
  - vm_compute; reflexivity.
  - vm_compute. intuition discriminate.
Defined.
